(** * gcal-cli: a shallow embedding of [gcal.py] and its verified properties

    The program is a command-line client for a remote calendar: it obtains
    credentials ([get_service]), then runs one of three commands ([cmd_add],
    [cmd_next], [cmd_today]) and renders events with [print_event].

    Python values that reach the program as decoded JSON are modelled by
    [pyval]; exceptions by [exc]; the external world (token file, remote
    service, clock, terminal) by an oracle record [env] and a [world] that
    carries the token file and a chronological log of effects. *)

From stdpp Require Import gmap strings list.
From Stdlib Require Import ZArith Ascii String.

Local Open Scope string_scope.
Local Open Scope Z_scope.

(** ** Exceptions and fallible results *)

(** [Exc cls msg] is an instance of a subclass of [Exception] whose class is
    named [cls] and whose [str(e)] is [msg]. [KeyboardInterrupt] and
    [SystemExit] derive from [BaseException] only. *)
Inductive exc : Type :=
  | Exc (cls : string) (msg : string)
  | KeyboardInterrupt
  | SystemExit (status : Z).

Inductive result (A : Type) : Type :=
  | Ok (a : A)
  | Raise (e : exc).
Arguments Ok {A} a.
Arguments Raise {A} e.

Definition ValueError {A} (msg : string) : result A := Raise (Exc "ValueError" msg).
Definition TypeError {A} (msg : string) : result A := Raise (Exc "TypeError" msg).
Definition KeyError {A} (msg : string) : result A := Raise (Exc "KeyError" msg).
Definition AttributeError {A} (msg : string) : result A := Raise (Exc "AttributeError" msg).

#[export] Instance result_ret : MRet result := fun _ a => Ok a.
#[export] Instance result_bind : MBind result := fun _ _ f r =>
  match r with
  | Ok a => f a
  | Raise e => Raise e
  end.

(** ** The standard library's [datetime.datetime.fromisoformat] and [strftime]

    [print_event] calls [datetime.datetime.fromisoformat(start)] and
    [dt.strftime("%I:%M %p")]. Both belong to CPython (3.11, the first
    release providing [datetime.UTC], which [cmd_next] uses). The parser
    below follows the interpreter's implementation, function by function
    ([Lib/datetime.py] names); it works on the UTF-8 bytes of the string,
    reading past the end of the string yields the terminating NUL. *)
Module Datetime.

Record datetime : Type := mk_datetime {
  year : Z; month : Z; day : Z;
  hour : Z; minute : Z; second : Z; microsecond : Z;
  utcoffset : option Z (* microseconds east of UTC; [None] when naive *)
}.

Definition MINYEAR : Z := 1.
Definition MAXYEAR : Z := 9999.

Definition NUL : ascii := Ascii.zero.

(** [*p], [p + n] and [p[i]] on a NUL-terminated buffer. *)
Definition peek (p : string) : ascii :=
  match p with
  | String c _ => c
  | EmptyString => NUL
  end.

Definition advance (n : nat) (p : string) : string :=
  String.substring n (String.length p - n) p.

Definition char_at (p : string) (i : nat) : ascii := peek (advance i p).

Definition is_char (c : ascii) (lit : string) : bool :=
  bool_decide (String c EmptyString = lit).

Definition digit_value (c : ascii) : option Z :=
  let n := Z.of_N (N_of_ascii c) in
  if (48 <=? n) && (n <=? 57) then Some (n - 48) else None.

Definition is_ascii_digit (c : ascii) : bool :=
  match digit_value c with Some _ => true | None => false end.

(** Number of leading bytes of [p] that satisfy [f]. *)
Fixpoint run_length (f : ascii -> bool) (p : string) : nat :=
  match p with
  | String c rest => if f c then S (run_length f rest) else O
  | EmptyString => O
  end.

(** Reads exactly [num_digits] decimal digits; [None] on any other byte. *)
Fixpoint parse_digits (p : string) (num_digits : nat) (acc : Z) : option (Z * string) :=
  match num_digits with
  | O => Some (acc, p)
  | S k =>
      match digit_value (peek p) with
      | Some d => parse_digits (advance 1 p) k (acc * 10 + d)
      | None => None
      end
  end.

(** *** Calendar arithmetic *)

Definition is_leap (y : Z) : bool :=
  (y mod 4 =? 0) && (negb (y mod 100 =? 0) || (y mod 400 =? 0)).

Definition days_before_year (y : Z) : Z :=
  let y := y - 1 in y * 365 + y / 4 - y / 100 + y / 400.

Definition DAYS_IN_MONTH : list Z := [-1; 31; 28; 31; 30; 31; 30; 31; 31; 30; 31; 30; 31].
Definition DAYS_BEFORE_MONTH : list Z :=
  [-1; 0; 31; 59; 90; 120; 151; 181; 212; 243; 273; 304; 334].

Definition table (t : list Z) (i : Z) : Z := default 0 (t !! Z.to_nat i).

Definition days_in_month (y m : Z) : Z :=
  if (m =? 2) && is_leap y then 29 else table DAYS_IN_MONTH m.

Definition days_before_month (y m : Z) : Z :=
  table DAYS_BEFORE_MONTH m + (if (2 <? m) && is_leap y then 1 else 0).

Definition ymd2ord (y m d : Z) : Z :=
  days_before_year y + days_before_month y m + d.

Definition DI400Y : Z := Eval cbv in days_before_year 401.
Definition DI100Y : Z := Eval cbv in days_before_year 101.
Definition DI4Y : Z := Eval cbv in days_before_year 5.

Definition ord2ymd (n : Z) : Z * Z * Z :=
  let n := n - 1 in
  let n400 := n / DI400Y in
  let n := n mod DI400Y in
  let y := n400 * 400 + 1 in
  let n100 := n / DI100Y in
  let n := n mod DI100Y in
  let n4 := n / DI4Y in
  let n := n mod DI4Y in
  let n1 := n / 365 in
  let n := n mod 365 in
  let y := y + n100 * 100 + n4 * 4 + n1 in
  if (n1 =? 4) || (n100 =? 4) then (y - 1, 12, 31)
  else
    let leapyear := (n1 =? 3) && (negb (n4 =? 24) || (n100 =? 3)) in
    let m := Z.shiftr (n + 50) 5 in
    let preceding :=
      table DAYS_BEFORE_MONTH m + (if (2 <? m) && leapyear then 1 else 0) in
    if n <? preceding then
      let m := m - 1 in
      let preceding :=
        preceding - (table DAYS_IN_MONTH m + (if (m =? 2) && leapyear then 1 else 0)) in
      (y, m, n - preceding + 1)
    else (y, m, n - preceding + 1).

Definition isoweek1monday (y : Z) : Z :=
  let THURSDAY := 3 in
  let firstday := ymd2ord y 1 1 in
  let firstweekday := (firstday + 6) mod 7 in
  let week1monday := firstday - firstweekday in
  if THURSDAY <? firstweekday then week1monday + 7 else week1monday.

Definition isoweek_to_gregorian (y week d : Z) : option (Z * Z * Z) :=
  if negb ((MINYEAR <=? y) && (y <=? MAXYEAR)) then None
  else
    let out_of_range :=
      if negb ((0 <? week) && (week <? 53)) then
        if week =? 53 then
          let first_weekday := ymd2ord y 1 1 mod 7 in
          negb ((first_weekday =? 4) || ((first_weekday =? 3) && is_leap y))
        else true
      else false in
    if out_of_range then None
    else if negb ((0 <? d) && (d <? 8)) then None
    else
      let day_offset := (week - 1) * 7 + (d - 1) in
      let day_1 := isoweek1monday y in
      Some (ord2ymd (day_1 + day_offset)).

(** *** The ISO 8601 parser *)

Definition find_isoformat_datetime_separator (dtstr : string) (len : nat) : option nat :=
  if bool_decide (len = 7%nat) then Some 7%nat
  else if is_char (char_at dtstr 4) "-" then
    if is_char (char_at dtstr 5) "W" then
      if bool_decide (len < 8)%nat then None
      else if bool_decide (8 < len)%nat && is_char (char_at dtstr 8) "-" then
        if bool_decide (len = 9%nat) then None
        else if bool_decide (10 < len)%nat && is_ascii_digit (char_at dtstr 10)
        then Some 8%nat
        else Some 10%nat
      else Some 8%nat
    else Some 10%nat
  else if is_char (char_at dtstr 4) "W" then
    let digits := String.substring 7 (len - 7) dtstr in
    let idx := (7 + run_length is_ascii_digit digits)%nat in
    if bool_decide (idx < 9)%nat then Some idx
    else if bool_decide (idx mod 2 = 0)%nat then Some 7%nat
    else Some 8%nat
  else Some 8%nat.

Definition parse_isoformat_date (dtstr : string) (len : nat) : option (Z * Z * Z) :=
  '(y, p) ← parse_digits dtstr 4 0;
  let uses_separator := is_char (peek p) "-" in
  let p := if uses_separator then advance 1 p else p in
  if is_char (peek p) "W" then
    let p := advance 1 p in
    '(iso_week, p) ← parse_digits p 2 0;
    if bool_decide (String.length dtstr - String.length p < len)%nat then
      if uses_separator && negb (is_char (peek p) "-") then None
      else
        let p := if uses_separator then advance 1 p else p in
        '(iso_day, _) ← parse_digits p 1 0;
        isoweek_to_gregorian y iso_week iso_day
    else isoweek_to_gregorian y iso_week 1
  else
    '(m, p) ← parse_digits p 2 0;
    if uses_separator && negb (is_char (peek p) "-") then None
    else
      let p := if uses_separator then advance 1 p else p in
      '(d, _) ← parse_digits p 2 0;
      Some (y, m, d).

Definition FRACTION_CORRECTION : list Z := [100000; 10000; 1000; 100; 10].

(** The fractional part: at most six digits are kept, further digits are
    skipped; the flag tells whether a byte other than NUL follows. *)
Definition parse_fraction (p : string) (remains : nat) (comps : list Z)
  : option (bool * list Z) :=
  let to_parse := if bool_decide (6 <= remains)%nat then 6%nat else remains in
  '(us, p) ← parse_digits p to_parse 0;
  let us :=
    if bool_decide (to_parse < 6)%nat
    then us * table FRACTION_CORRECTION (Z.of_nat to_parse - 1) else us in
  let p := advance (run_length is_ascii_digit p) p in
  Some (negb (is_char (peek p) (String NUL EmptyString)), (comps ++ replicate (3 - List.length comps) 0 ++ [us])%list).

(** [HH[:?MM[:?SS[{.,}fff[fff]]]]] in the first [len] bytes of [tstr].
    The result flag is [true] when unparsed bytes follow. [comp] counts
    the components still to read (3, 2, 1). *)
Fixpoint parse_components (comp : nat) (first : bool) (has_separator : bool)
    (p : string) (remains : Z) (comps : list Z) : option (bool * list Z) :=
  match comp with
  | O => parse_fraction p (Z.to_nat remains) comps
  | S comp' =>
      '(v, p) ← parse_digits p 2 0;
      let comps := (comps ++ [v])%list in
      let c := peek p in
      let p1 := advance 1 p in
      let has_separator := if first then is_char c ":" else has_separator in
      if remains - 3 <=? 0 then
        Some (negb (is_char c (String NUL EmptyString)), comps)
      else if has_separator && is_char c ":" then
        parse_components comp' false has_separator p1 (remains - 3) comps
      else if is_char c "." || is_char c "," then
        parse_fraction p1 (Z.to_nat (remains - 3)) comps
      else if negb has_separator then
        parse_components comp' false has_separator p (remains - 2) comps
      else None
  end.

Definition parse_hh_mm_ss_ff (tstr : string) (len : nat) : option (bool * list Z) :=
  '(rest, comps) ← parse_components 3 true true tstr (Z.of_nat len) [];
  Some (rest, (comps ++ replicate (4 - List.length comps) 0)%list).

Definition is_tz_marker (c : ascii) : bool :=
  is_char c "Z" || is_char c "+" || is_char c "-".

(** Position of the first of [Z], [+], [-] among the first [len] bytes
    (at least one byte is examined), or the position after them. *)
Definition find_tzinfo (p : string) (len : nat) : nat :=
  let before := run_length (fun c => negb (is_tz_marker c)) (String.substring 0 len p) in
  if bool_decide (before < len)%nat then before else Nat.max len 1.

(** Returns the four time components and the offset, in microseconds. *)
Definition parse_isoformat_time (p : string) (len : nat)
  : option (list Z * option (Z * Z)) :=
  let tzinfo_pos := find_tzinfo p len in
  '(rest, comps) ← parse_hh_mm_ss_ff p tzinfo_pos;
  if bool_decide (tzinfo_pos = len) then
    if (rest : bool) then None else Some (comps, None)
  else if is_char (char_at p tzinfo_pos) "Z" then
    if is_char (char_at p (tzinfo_pos + 1)) (String NUL EmptyString)
    then Some (comps, Some (0, 0)) else None
  else
    let tzsign := if is_char (char_at p tzinfo_pos) "-" then -1 else 1 in
    let tzstr := advance (tzinfo_pos + 1) p in
    '(rest, tz) ← parse_hh_mm_ss_ff tzstr (len - (tzinfo_pos + 1));
    if (rest : bool) then None
    else
      let tzoffset := tzsign * (table tz 0 * 3600 + table tz 1 * 60 + table tz 2) in
      Some (comps, Some (tzoffset, tzsign * table tz 3)).

(** A multi-byte UTF-8 character may separate date and time. *)
Definition separator_width (c : ascii) : nat :=
  let b := Z.of_N (N_of_ascii c) in
  if Z.land b 128 =? 0 then 1%nat
  else if Z.land b 240 =? 224 then 3%nat
  else if Z.land b 240 =? 240 then 4%nat
  else 2%nat.

Definition tzinfo_from_isoformat_results (tz : option (Z * Z)) : result (option Z) :=
  match tz with
  | None => Ok None
  | Some (tzoffset, tz_useconds) =>
      if tzoffset =? 0 then Ok (Some 0)
      else
        let delta := tzoffset * 1000000 + tz_useconds in
        if (-86400000000 <? delta) && (delta <? 86400000000) then Ok (Some delta)
        else ValueError "offset must be a timedelta strictly between -timedelta(hours=24) and timedelta(hours=24)"
  end.

Definition new_datetime (y m d hh mm ss us : Z) (tz : option Z) : result datetime :=
  if negb ((MINYEAR <=? y) && (y <=? MAXYEAR)) then ValueError "year is out of range"
  else if negb ((1 <=? m) && (m <=? 12)) then ValueError "month must be in 1..12"
  else if negb ((1 <=? d) && (d <=? days_in_month y m)) then
    ValueError "day is out of range for month"
  else if negb ((0 <=? hh) && (hh <=? 23)) then ValueError "hour must be in 0..23"
  else if negb ((0 <=? mm) && (mm <=? 59)) then ValueError "minute must be in 0..59"
  else if negb ((0 <=? ss) && (ss <=? 59)) then ValueError "second must be in 0..59"
  else if negb ((0 <=? us) && (us <=? 999999)) then
    ValueError "microsecond must be in 0..999999"
  else Ok (mk_datetime y m d hh mm ss us tz).

(** [datetime.fromisoformat(date_string)] for a [str] argument; [repr] is
    [repr(date_string)], used in the error message only. Every failure is
    a [ValueError]. *)
Definition fromisoformat (repr : string) (date_string : string) : result datetime :=
  let invalid := ValueError ("Invalid isoformat string: " ++ repr) in
  let len := String.length date_string in
  if bool_decide (len < 7)%nat then invalid
  else
    match find_isoformat_datetime_separator date_string len with
    | None => invalid
    | Some separator_location =>
        match parse_isoformat_date date_string separator_location with
        | None => invalid
        | Some (y, m, d) =>
            if bool_decide (separator_location < len)%nat then
              let w := separator_width (char_at date_string separator_location) in
              let p := advance (separator_location + w) date_string in
              match parse_isoformat_time p (len - (separator_location + w)) with
              | None => invalid
              | Some (t, tz) =>
                  tzinfo ← tzinfo_from_isoformat_results tz;
                  new_datetime y m d (table t 0) (table t 1) (table t 2) (table t 3) tzinfo
              end
            else new_datetime y m d 0 0 0 0 None
        end
    end.

(** *** Formatting *)

Definition digit_char (d : Z) : ascii := ascii_of_N (Z.to_N (48 + d)).

Definition two_digits (n : Z) : string :=
  String (digit_char (n / 10)) (String (digit_char (n mod 10)) EmptyString).

(** [dt.strftime("%I:%M %p")] in the C locale: the hour on a 12-hour
    clock, zero padded, the minute, and [AM] or [PM]. *)
Definition strftime_I_M_p (dt : datetime) : string :=
  let h12 := if hour dt mod 12 =? 0 then 12 else hour dt mod 12 in
  two_digits h12 ++ ":" ++ two_digits (minute dt) ++ " "
    ++ (if hour dt <? 12 then "AM" else "PM").

End Datetime.

(** ** Python values

    The remote service answers with decoded JSON: [None], booleans,
    integers, floats (kept as their IEEE-754 bit pattern), strings, lists
    and dictionaries with string keys. *)
Set Warnings "-register-all".
Inductive pyval : Type :=
  | PNone
  | PBool (b : bool)
  | PInt (n : Z)
  | PFloat (bits : Z)
  | PStr (s : string)
  | PList (items : list pyval)
  | PDict (fields : gmap string pyval).

Definition type_name (v : pyval) : string :=
  match v with
  | PNone => "NoneType"
  | PBool _ => "bool"
  | PInt _ => "int"
  | PFloat _ => "float"
  | PStr _ => "str"
  | PList _ => "list"
  | PDict _ => "dict"
  end.

(** [bool(v)], as tested by [if not v]. *)
Definition truthy (v : pyval) : bool :=
  match v with
  | PNone => false
  | PBool b => b
  | PInt n => negb (n =? 0)
  | PFloat bits => negb (Z.land bits (2 ^ 63 - 1) =? 0)
  | PStr s => negb (bool_decide (s = ""))
  | PList items => negb (bool_decide (items = []))
  | PDict fields => negb (bool_decide (fields = ∅))
  end.

(** [repr(key)] for the key literals of the program (['start'],
    ['summary']), which contain no quote, backslash or control character. *)
Definition repr_key (key : string) : string := "'" ++ key ++ "'".

(** [obj[key]] for a string [key]. *)
Definition py_getitem (obj : pyval) (key : string) : result pyval :=
  match obj with
  | PDict fields =>
      match fields !! key with
      | Some v => Ok v
      | None => KeyError (repr_key key)
      end
  | PStr _ => TypeError "string indices must be integers, not 'str'"
  | PList _ => TypeError "list indices must be integers or slices, not str"
  | _ => TypeError ("'" ++ type_name obj ++ "' object is not subscriptable")
  end.

(** [obj.get(key, dflt)]: only dictionaries have the method. *)
Definition py_get (obj : pyval) (key : string) (dflt : pyval) : result pyval :=
  match obj with
  | PDict fields => Ok (default dflt (fields !! key))
  | _ => AttributeError ("'" ++ type_name obj ++ "' object has no attribute 'get'")
  end.

(** [obj.startswith(prefix)]: only strings have the method. *)
Definition py_startswith (obj : pyval) (prefix : string) : result bool :=
  match obj with
  | PStr s => Ok (String.prefix prefix s)
  | _ => AttributeError ("'" ++ type_name obj ++ "' object has no attribute 'startswith'")
  end.

Definition chars (s : string) : list pyval :=
  (fun c => PStr (String c EmptyString)) <$> String.list_ascii_of_string s.

(** The elements visited by [for x in obj]. A dictionary yields its keys
    and a string its characters; the loops of this program fail on the
    first such element whatever it is, so their order and the split of a
    string into characters are immaterial. *)
Definition py_iter (obj : pyval) : result (list pyval) :=
  match obj with
  | PList items => Ok items
  | PDict fields => Ok (PStr <$> (map_to_list fields).*1)
  | PStr s => Ok (chars s)
  | _ => TypeError ("'" ++ type_name obj ++ "' object is not iterable")
  end.

(** [obj[0]]. *)
Definition py_first (obj : pyval) : result pyval :=
  match obj with
  | PList (x :: _) => Ok x
  | PList [] => Raise (Exc "IndexError" "list index out of range")
  | PStr s =>
      match chars s with
      | c :: _ => Ok c
      | [] => Raise (Exc "IndexError" "string index out of range")
      end
  | PDict _ => KeyError "0"
  | _ => TypeError ("'" ++ type_name obj ++ "' object is not subscriptable")
  end.

(** ** The outside world *)

(** [google.oauth2.credentials.Credentials], as far as the program
    observes it. *)
Record creds : Type := {
  valid : bool;
  expired : bool;
  refresh_token : option string;
  to_json : string
}.

(** [InstalledAppFlow]: running it opens the consent page. *)
Record flow : Type := {
  run_local_server : result creds
}.

(** The object returned by [build('calendar', 'v3', ...)]: each method
    stands for one request, [.execute()] included. *)
Record service : Type := {
  quickAdd : string -> string -> result pyval;
  events_list : string -> string -> Z -> bool -> string -> result pyval
}.

Inductive command : Type :=
  | CmdAdd (text : list string)
  | CmdNext
  | CmdToday.

(** Everything the program obtains from libraries and the environment. *)
Record env : Type := {
  (** [str(v)] for numbers and containers *)
  py_repr : pyval -> string;
  (** [argparse] on a command line with option-like words *)
  argparse_options : list string -> result command;
  (** [Credentials.from_authorized_user_file], by file content *)
  from_authorized_user_file : string -> result creds;
  (** [creds.refresh(Request())]: the credentials after the request *)
  refresh : creds -> result creds;
  (** [InstalledAppFlow.from_client_secrets_file(creds_path, SCOPES)] *)
  from_client_secrets_file : result flow;
  build : option creds -> result service;
  (** [datetime.datetime.now(datetime.UTC).isoformat()] in [cmd_next] *)
  utcnow_isoformat : string;
  (** [datetime.datetime.now().isoformat()] in [cmd_today] *)
  now_isoformat : string;
  (** [datetime.date.today()] printed in the agenda header *)
  today_header : string;
  (** [datetime.date.today().isoformat()] read before the loop *)
  today_isoformat : string
}.

(** Observable effects, and one ghost event: [Present] marks each call of
    [print_event] with its arguments. *)
Inductive effect : Type :=
  | Print (line : string)
  | Present (event : pyval) (prefix : string)
  | TokenRead
  | TokenWrite (data : string)
  | RefreshRequest
  | SecretsRead
  | InteractiveFlow
  | Build
  | QuickAdd (calendarId text : string)
  | ListEvents (calendarId timeMin : string) (maxResults : Z)
      (singleEvents : bool) (orderBy : string).

Record world : Type := {
  token_file : option string;
  log : list effect
}.

(** Appends effects to the log and leaves the token file alone. *)
Definition extend (w : world) (l : list effect) : world :=
  {| token_file := token_file w; log := (log w ++ l)%list |}.

(** ** The monad of the program: state and exceptions *)

Record M (A : Type) : Type := MkM { run : world -> result A * world }.
Arguments MkM {A} run.
Arguments run {A} m w.

#[export] Instance M_ret : MRet M := fun _ a => MkM (fun w => (Ok a, w)).
#[export] Instance M_bind : MBind M := fun _ _ f m =>
  MkM (fun w =>
    match run m w with
    | (Ok a, w') => run (f a) w'
    | (Raise e, w') => (Raise e, w')
    end).

Definition lift {A} (r : result A) : M A := MkM (fun w => (r, w)).

Definition emit (e : effect) : M unit := MkM (fun w => (Ok tt, extend w [e])).

Definition print (line : string) : M unit := emit (Print line).

Definition read_token_file : M (option string) := MkM (fun w => (Ok (token_file w), w)).

Definition write_token_file (data : string) : M unit :=
  MkM (fun w => (Ok tt, {| token_file := Some data; log := (log w ++ [TokenWrite data])%list |})).

(** [try: body except Exception as e: handler(str(e))]. *)
Definition try_except_Exception {A} (body : M A) (handler : string -> M A) : M A :=
  MkM (fun w =>
    match run body w with
    | (Raise (Exc _ msg), w') => run (handler msg) w'
    | r => r
    end).

(** [try: body except ValueError: handler]. The bodies guarded this way
    raise [ValueError] itself, never a subclass. *)
Definition try_except_ValueError {A} (body : result A) (handler : result A) : result A :=
  match body with
  | Raise (Exc cls _) => if bool_decide (cls = "ValueError") then handler else body
  | _ => body
  end.

(** ** The program *)

Definition ESC : string := String (ascii_of_nat 27) EmptyString.

(** [str(v)] as interpolated by an f-string. *)
Definition py_str (E : env) (v : pyval) : string :=
  match v with
  | PStr s => s
  | PNone => "None"
  | PBool true => "True"
  | PBool false => "False"
  | _ => py_repr E v
  end.

(** [datetime.datetime.fromisoformat(v)]. *)
Definition py_fromisoformat (E : env) (v : pyval) : result Datetime.datetime :=
  match v with
  | PStr s => Datetime.fromisoformat (py_repr E v) s
  | _ => TypeError "fromisoformat: argument must be str"
  end.

(** [event['start'].get('dateTime', event['start'].get('date'))]; both
    occurrences of [event['start']] denote the same object. *)
Definition start_of (event : pyval) : result pyval :=
  st ← py_getitem event "start";
  dflt ← py_get st "date" PNone;
  py_get st "dateTime" dflt.

(** The [try] statement of [print_event]. *)
Definition time_str_of (E : env) (start : pyval) : result string :=
  try_except_ValueError
    (dt ← py_fromisoformat E start; Ok (Datetime.strftime_I_M_p dt))
    (Ok "All Day").

(** The line [print_event] prints, or the exception it raises first. *)
Definition event_line (E : env) (event : pyval) (prefix : string) : result string :=
  start ← start_of event;
  summary ← py_getitem event "summary";
  time_str ← time_str_of E start;
  Ok (prefix ++ ESC ++ "[96m[" ++ time_str ++ "]" ++ ESC ++ "[0m " ++ py_str E summary).

Definition print_event (E : env) (event : pyval) (prefix : string) : M unit :=
  emit (Present event prefix);;
  line ← lift (event_line E event prefix);
  print line.

Definition interactive_authorization (E : env) : M creds :=
  emit SecretsRead;;
  fl ← lift (from_client_secrets_file E);
  emit InteractiveFlow;;
  lift (run_local_server fl).

(** Truth value of [creds and creds.expired and creds.refresh_token]. *)
Definition refreshable (c : option creds) : bool :=
  match c with
  | Some c =>
      expired c &&
      match refresh_token c with
      | Some t => negb (bool_decide (t = ""))
      | None => false
      end
  | None => false
  end.

(** Truth value of [not creds or not creds.valid]. *)
Definition needs_authorization (c : option creds) : bool :=
  match c with
  | Some c => negb (valid c)
  | None => true
  end.

Definition get_service (E : env) : M service :=
  token ← read_token_file;
  creds ← match token with
          | Some data =>
              emit TokenRead;;
              c ← lift (from_authorized_user_file E data);
              mret (Some c)
          | None => mret None
          end;
  creds ← (if needs_authorization creds then
             c ← match creds with
                 | Some c0 =>
                     if refreshable creds
                     then emit RefreshRequest;; lift (refresh E c0)
                     else interactive_authorization E
                 | None => interactive_authorization E
                 end;
             write_token_file (to_json c);;
             mret (Some c)
           else mret creds);
  emit Build;;
  lift (build E creds).

Definition cmd_add (E : env) (svc : service) (text : list string) : M unit :=
  let text := String.concat " " text in
  print ("Adding: '" ++ text ++ "'...");;
  emit (QuickAdd "primary" text);;
  event ← lift (quickAdd svc "primary" text);
  summary ← lift (py_get event "summary" PNone);
  print ("✅ Created event: " ++ py_str E summary);;
  link ← lift (py_get event "htmlLink" PNone);
  print ("   Link: " ++ py_str E link).

Definition cmd_next (E : env) (svc : service) : M unit :=
  let now := utcnow_isoformat E in
  emit (ListEvents "primary" now 1 true "startTime");;
  events_result ← lift (events_list svc "primary" now 1 true "startTime");
  events ← lift (py_get events_result "items" (PList []));
  if negb (truthy events) then print "No upcoming events found."
  else
    first ← lift (py_first events);
    print_event E first "⏭️  NEXT: ".

(** The [for] loop of [cmd_today]; the result is [count]. *)
Fixpoint today_loop (E : env) (events : list pyval) (today_str : string) (count : nat)
  : M nat :=
  match events with
  | [] => mret count
  | event :: rest =>
      start ← lift (start_of event);
      today ← lift (py_startswith start today_str);
      if (today : bool) then
        print_event E event "";;
        today_loop E rest today_str (S count)
      else today_loop E rest today_str count
  end.

Definition cmd_today (E : env) (svc : service) : M unit :=
  let now_iso := now_isoformat E ++ "Z" in
  print ("📅 Agenda for Today (" ++ today_header E ++ "):");;
  print "----------------------------------------";;
  emit (ListEvents "primary" now_iso 20 true "startTime");;
  events_result ← lift (events_list svc "primary" now_iso 20 true "startTime");
  events ← lift (py_get events_result "items" (PList []));
  if negb (truthy events) then print "No events found."
  else
    let today_str := today_isoformat E in
    items ← lift (py_iter events);
    count ← today_loop E items today_str 0;
    if bool_decide (count = 0%nat) then print "Nothing left for today! 🎉"
    else mret tt.

Definition option_like (word : string) : bool := String.prefix "-" word.

(** [parser.parse_args()] on the words after the program name. A usage
    error ends the process through [SystemExit(2)]. *)
Definition parse_args (E : env) (argv : list string) : result command :=
  if existsb option_like argv then argparse_options E argv
  else
    match argv with
    | [] => Raise (SystemExit 2)
    | command :: rest =>
        if bool_decide (command = "add") then
          match rest with
          | [] => Raise (SystemExit 2)
          | _ => Ok (CmdAdd rest)
          end
        else if bool_decide (command = "next") then
          match rest with
          | [] => Ok CmdNext
          | _ => Raise (SystemExit 2)
          end
        else if bool_decide (command = "today") then
          match rest with
          | [] => Ok CmdToday
          | _ => Raise (SystemExit 2)
          end
        else Raise (SystemExit 2)
    end.

(** The body of the [try] statement of [main]. *)
Definition dispatch (E : env) (args : command) : M unit :=
  svc ← get_service E;
  match args with
  | CmdAdd text => cmd_add E svc text
  | CmdNext => cmd_next E svc
  | CmdToday => cmd_today E svc
  end.

Definition main (E : env) (argv : list string) : M unit :=
  args ← lift (parse_args E argv);
  try_except_Exception (dispatch E args) (fun msg => print ("Error: " ++ msg)).

(** ** Reading the log *)

(** The events handed to [print_event], in call order. *)
Fixpoint presented (l : list effect) : list pyval :=
  match l with
  | [] => []
  | Present event _ :: rest => event :: presented rest
  | _ :: rest => presented rest
  end.

(** The lines written to the terminal, in order. *)
Fixpoint printed (l : list effect) : list string :=
  match l with
  | [] => []
  | Print line :: rest => line :: printed rest
  | _ :: rest => printed rest
  end.

(** ** Event records, as the data model describes them *)

(** The start value: the [dateTime] field if present, otherwise the
    [date] field. *)
Definition start_value (event : pyval) : option pyval :=
  match event with
  | PDict fields =>
      match fields !! "start" with
      | Some (PDict st) =>
          match st !! "dateTime" with
          | Some v => Some v
          | None => st !! "date"
          end
      | _ => None
      end
  | _ => None
  end.

Definition start_string (event : pyval) : option string :=
  match start_value event with
  | Some (PStr s) => Some s
  | _ => None
  end.

Definition summary_value (event : pyval) : option pyval :=
  match event with
  | PDict fields => fields !! "summary"
  | _ => None
  end.

(** The start value begins textually with [d]. *)
Definition starts_on (d : string) (event : pyval) : bool :=
  match start_string event with
  | Some s => String.prefix d s
  | None => false
  end.

(** An event with a textual start and a summary. *)
Definition event_record (event : pyval) : bool :=
  bool_decide (is_Some (start_string event)) && bool_decide (is_Some (summary_value event)).

(** An event with a textual start. *)
Definition dated_record (event : pyval) : bool :=
  bool_decide (is_Some (start_string event)).

(** The time token shown for a textual start. *)
Definition time_token (s : string) : string :=
  match Datetime.fromisoformat "" s with
  | Ok dt => Datetime.strftime_I_M_p dt
  | Raise _ => "All Day"
  end.

(** The line shown for an event record. *)
Definition rendered (E : env) (prefix : string) (event : pyval) : string :=
  prefix ++ ESC ++ "[96m[" ++ time_token (default "" (start_string event)) ++ "]"
    ++ ESC ++ "[0m " ++ py_str E (default PNone (summary_value event)).

(** The log entries of one successful [print_event] call. *)
Definition presentation (E : env) (prefix : string) (event : pyval) : list effect :=
  [Present event prefix; Print (rendered E prefix event)].

Local Open Scope list_scope.

(** What the loop of [cmd_today] needs of an event: a textual start, and a
    summary when it starts on day [d]. *)
Definition presentable (d : string) (event : pyval) : bool :=
  dated_record event && (negb (starts_on d event) || event_record event).

(** The first three log entries of [cmd_today]. *)
Definition agenda_header (E : env) : list effect :=
  [Print ("📅 Agenda for Today (" +:+ today_header E +:+ "):");
   Print "----------------------------------------";
   ListEvents "primary" (now_isoformat E +:+ "Z") 20 true "startTime"].

(** What [cmd_today] adds to the log after the header. *)
Definition agenda_body (E : env) (events : list pyval) : list effect :=
  match events with
  | [] => [Print "No events found."]
  | _ =>
      match List.filter (starts_on (today_isoformat E)) events with
      | [] => [Print "Nothing left for today! 🎉"]
      | selected => flat_map (presentation E "") selected
      end
  end.

Definition empty_world : world := {| token_file := None; log := [] |}.

(** The events the loop of [cmd_today] hands to [print_event], whatever the
    input and however the loop ends. *)
Definition today_selection (E : env) (d : string) (events : list pyval) : list pyval :=
  presented (log (run (today_loop E events d 0) empty_world).2).

(** The test of the loop: [start.startswith(today_str)]. *)
Definition today_test (d : string) (event : pyval) : result bool :=
  start ← start_of event; py_startswith start d.

(** The selection computed without the monad; [today_selection_selection]
    relates it to the loop. *)
Fixpoint selection (E : env) (d : string) (events : list pyval) : list pyval :=
  match events with
  | [] => []
  | event :: rest =>
      match today_test d event with
      | Ok true =>
          event :: match event_line E event "" with
                   | Ok _ => selection E d rest
                   | Raise _ => []
                   end
      | Ok false => selection E d rest
      | Raise _ => []
      end
  end.

(** ** A concrete environment, for examples *)
Module Demo.

Definition stored_token : string := "{token: ya29, refresh_token: 1//0g}".

Definition stored_creds : creds :=
  {| valid := true; expired := false;
     refresh_token := Some "1//0g"; to_json := stored_token |}.

Definition fresh_creds : creds :=
  {| valid := true; expired := false;
     refresh_token := Some "1//0h"; to_json := "{token: ya30, refresh_token: 1//0h}" |}.

(** A calendar that answers every request with [answer]. *)
Definition calendar (answer : pyval) : service :=
  {| quickAdd := fun _ _ => Ok answer;
     events_list := fun _ _ _ _ _ => Ok answer |}.

Definition environment (answer : pyval) : env :=
  {| py_repr := fun _ => "<object>";
     argparse_options := fun _ => Raise (SystemExit 2);
     from_authorized_user_file := fun data =>
       if bool_decide (data = stored_token) then Ok stored_creds
       else Raise (Exc "JSONDecodeError" "Expecting value: line 1 column 1 (char 0)");
     refresh := fun c => Ok c;
     from_client_secrets_file := Ok {| run_local_server := Ok fresh_creds |};
     build := fun _ => Ok (calendar answer);
     utcnow_isoformat := "2024-01-01T08:00:00+00:00";
     now_isoformat := "2024-01-01T08:00:00";
     today_header := "2024-01-01";
     today_isoformat := "2024-01-01" |}.

Definition timed_event (start summary : string) : pyval :=
  PDict {[ "start" := PDict {[ "dateTime" := PStr start ]}; "summary" := PStr summary ]}.

Definition all_day_event (start summary : string) : pyval :=
  PDict {[ "start" := PDict {[ "date" := PStr start ]}; "summary" := PStr summary ]}.

Definition untitled_event (start : string) : pyval :=
  PDict {[ "start" := PDict {[ "dateTime" := PStr start ]} ]}.

Definition standup : pyval := timed_event "2024-01-01T09:00:00" "Standup".
Definition review : pyval := timed_event "2024-01-02T10:00:00" "Review".

Definition listing (events : list pyval) : gmap string pyval :=
  {[ "items" := PList events ]}.

Definition created : gmap string pyval :=
  {[ "summary" := PStr "Dinner";
     "htmlLink" := PStr "https://www.google.com/calendar/event?eid=abc" ]}.

Definition with_token (data : string) : world :=
  {| token_file := Some data; log := [] |}.

End Demo.

(** ** Accesses recorded in a log *)

Definition is_token_read (e : effect) : bool :=
  match e with TokenRead => true | _ => false end.

Definition is_token_write (e : effect) : bool :=
  match e with TokenWrite _ => true | _ => false end.

Definition is_refresh (e : effect) : bool :=
  match e with RefreshRequest => true | _ => false end.

Definition is_interactive (e : effect) : bool :=
  match e with InteractiveFlow => true | _ => false end.

Definition is_request (e : effect) : bool :=
  match e with QuickAdd _ _ | ListEvents _ _ _ _ _ => true | _ => false end.

Definition occurrences (f : effect -> bool) (l : list effect) : nat :=
  List.length (List.filter f l).

(** ** More concrete environments *)
Module Scenario.

(** Credentials whose access token has expired. *)
Definition expired_creds : creds :=
  {| valid := false; expired := true;
     refresh_token := Some "1//0g"; to_json := "{token: ya28, refresh_token: 1//0g}" |}.

(** Credentials without access token and without refresh token. *)
Definition bare_creds : creds :=
  {| valid := false; expired := false;
     refresh_token := None; to_json := "{}" |}.

(** An environment given by what the token loader, the refresh request,
    the client-secrets loader and the calendar answer. *)
Definition office (load : string -> result creds) (renew : creds -> result creds)
    (secrets : result flow) (answer : result pyval) : env :=
  {| py_repr := fun _ => "<object>";
     argparse_options := fun _ => Raise (SystemExit 2);
     from_authorized_user_file := load;
     refresh := renew;
     from_client_secrets_file := secrets;
     build := fun _ =>
       Ok {| quickAdd := fun _ _ => answer; events_list := fun _ _ _ _ _ => answer |};
     utcnow_isoformat := "2024-01-01T08:00:00+00:00";
     now_isoformat := "2024-01-01T08:00:00";
     today_header := "2024-01-01";
     today_isoformat := "2024-01-01" |}.

Definition desk (answer : result pyval) : service :=
  {| quickAdd := fun _ _ => answer; events_list := fun _ _ _ _ _ => answer |}.

(** The loader that understands what [to_json] of the credentials of
    [Demo] and of this module writes. *)
Definition loader (data : string) : result creds :=
  if bool_decide (data = to_json Demo.stored_creds) then Ok Demo.stored_creds
  else if bool_decide (data = to_json Demo.fresh_creds) then Ok Demo.fresh_creds
  else if bool_decide (data = to_json expired_creds) then Ok expired_creds
  else if bool_decide (data = to_json bare_creds) then Ok bare_creds
  else Raise (Exc "JSONDecodeError" "Expecting value: line 1 column 1 (char 0)").

Definition consent : result flow := Ok {| run_local_server := Ok Demo.fresh_creds |}.

Definition busy : exc := Exc "HttpError" "<HttpError 503 Service Unavailable>".

Definition untimed_event (summary : string) : pyval :=
  PDict {[ "summary" := PStr summary ]}.

End Scenario.

(** [datetime.date(y, m, d).isoformat()]: the form in which the calendar
    gives the start of an all-day event. *)
Definition isoformat_date (y m d : Z) : string :=
  Datetime.two_digits (y / 100) +:+ Datetime.two_digits (y mod 100) +:+ "-"
    +:+ Datetime.two_digits m +:+ "-" +:+ Datetime.two_digits d.

(** The words that select a command. *)
Definition command_line (args : command) : list string :=
  match args with
  | CmdAdd text => "add" :: text
  | CmdNext => ["next"]
  | CmdToday => ["today"]
  end.

(** What a command prints and requests before the service answers. *)
Definition before_answer (E : env) (args : command) : list effect :=
  match args with
  | CmdAdd text =>
      [Print ("Adding: '" +:+ String.concat " " text +:+ "'...");
       QuickAdd "primary" (String.concat " " text)]
  | CmdNext => [ListEvents "primary" (utcnow_isoformat E) 1 true "startTime"]
  | CmdToday => agenda_header E
  end.

(** The answer of the service to the request of a command. *)
Definition answer_to (E : env) (svc : service) (args : command) : result pyval :=
  match args with
  | CmdAdd text => quickAdd svc "primary" (String.concat " " text)
  | CmdNext => events_list svc "primary" (utcnow_isoformat E) 1 true "startTime"
  | CmdToday => events_list svc "primary" (now_isoformat E +:+ "Z") 20 true "startTime"
  end.

(** Division and remainder facts for [lia]. *)
Ltac div_facts a b :=
  let Hdiv := fresh "Hdiv" in
  let Hmod := fresh "Hmod" in
  pose proof (Z.div_mod a b ltac:(lia)) as Hdiv;
  pose proof (Z.mod_pos_bound a b ltac:(lia)) as Hmod.

(** ** The monad and the log *)

Lemma run_bind {A B} (m : M A) (f : A -> M B) w :
  run (m ≫= f) w =
    match run m w with
    | (Ok a, w') => run (f a) w'
    | (Raise e, w') => (Raise e, w')
    end.
Proof. done. Qed.

Lemma extend_extend w l1 l2 : extend (extend w l1) l2 = extend w (l1 ++ l2).
Proof. unfold extend. cbn. by rewrite <- app_assoc. Qed.

Lemma extend_nil w : extend w [] = w.
Proof. destruct w. unfold extend. cbn. by rewrite app_nil_r. Qed.

Lemma presented_app l1 l2 : presented (l1 ++ l2) = presented l1 ++ presented l2.
Proof.
  induction l1 as [|e l1 IH]; [done|]. destruct e; cbn; by rewrite ?IH.
Qed.

Lemma printed_app l1 l2 : printed (l1 ++ l2) = printed l1 ++ printed l2.
Proof.
  induction l1 as [|e l1 IH]; [done|]. destruct e; cbn; by rewrite ?IH.
Qed.

Lemma presented_presentations E prefix events :
  presented (flat_map (presentation E prefix) events) = events.
Proof. induction events as [|event rest IH]; cbn; by rewrite ?IH. Qed.

(** ** The parser fails with [ValueError] only *)

Lemma new_datetime_cases y m d hh mm ss us tz :
  (exists dt, Datetime.new_datetime y m d hh mm ss us tz = Ok dt) \/
  (exists msg, Datetime.new_datetime y m d hh mm ss us tz = ValueError msg).
Proof.
  unfold Datetime.new_datetime.
  repeat match goal with |- context [if ?b then _ else _] => destruct b end; eauto.
Qed.

Lemma tzinfo_cases tz :
  (exists o, Datetime.tzinfo_from_isoformat_results tz = Ok o) \/
  (exists msg, Datetime.tzinfo_from_isoformat_results tz = ValueError msg).
Proof.
  destruct tz as [[tzoffset us]|]; cbn; [|eauto].
  repeat match goal with |- context [if ?b then _ else _] => destruct b end; eauto.
Qed.

(** The outcome does not depend on the text used for the error message. *)
Lemma fromisoformat_cases s :
  (exists dt, forall r, Datetime.fromisoformat r s = Ok dt) \/
  (forall r, exists msg, Datetime.fromisoformat r s = ValueError msg).
Proof.
  unfold Datetime.fromisoformat.
  destruct (bool_decide _); [right; eauto|].
  destruct (Datetime.find_isoformat_datetime_separator _ _) as [n|]; [|right; eauto].
  destruct (Datetime.parse_isoformat_date s n) as [[[y m] d]|]; [|right; eauto].
  destruct (bool_decide (n < _)%nat).
  - destruct (Datetime.parse_isoformat_time _ _) as [[t tz]|]; [|right; eauto].
    destruct (tzinfo_cases tz) as [[o ->]|[msg ->]]; [|right; eauto].
    cbn. destruct (new_datetime_cases y m d (Datetime.table t 0) (Datetime.table t 1)
      (Datetime.table t 2) (Datetime.table t 3) o) as [[dt ->]|[msg ->]]; eauto.
  - destruct (new_datetime_cases y m d 0 0 0 0 None) as [[dt ->]|[msg ->]]; eauto.
Qed.

(** The [try] statement of [print_event] on a string: the formatted time
    when the string parses, ["All Day"] when it does not. *)
Lemma time_str_of_string E s : time_str_of E (PStr s) = Ok (time_token s).
Proof.
  unfold time_str_of, time_token, py_fromisoformat.
  destruct (fromisoformat_cases s) as [[dt H]|H].
  - by rewrite !H.
  - destruct (H (py_repr E (PStr s))) as [msg ->], (H "") as [msg' ->]. done.
Qed.

(** ** Event records in the code *)

Lemma start_of_string event s : start_string event = Some s -> start_of event = Ok (PStr s).
Proof.
  unfold start_string, start_value, start_of.
  destruct event as [| | | | |? |fields]; try done. cbn.
  destruct (fields !! "start") as [[| | | | | |st]|]; try done. cbn.
  destruct (st !! "dateTime") as [v|]; cbn.
  - destruct v; try done. congruence.
  - destruct (st !! "date") as [[]|]; try done. cbn. congruence.
Qed.

Lemma event_line_record E prefix event :
  event_record event = true -> event_line E event prefix = Ok (rendered E prefix event).
Proof.
  unfold event_record, event_line, rendered. intros [Hs Hv]%andb_prop.
  apply bool_decide_eq_true in Hs as [s Hs], Hv as [v Hv].
  rewrite (start_of_string _ _ Hs), Hs, Hv. cbn.
  destruct event as [| | | | |? |fields]; try done. cbn in Hv |- *.
  rewrite Hv. cbn. by rewrite time_str_of_string.
Qed.

Lemma print_event_run E event prefix w :
  run (print_event E event prefix) w =
    match event_line E event prefix with
    | Ok line => (Ok tt, extend w [Present event prefix; Print line])
    | Raise e => (Raise e, extend w [Present event prefix])
    end.
Proof.
  unfold print_event. cbn. destruct (event_line E event prefix); cbn; [|done].
  by rewrite extend_extend.
Qed.

Lemma print_event_record E prefix event w :
  event_record event = true ->
  run (print_event E event prefix) w = (Ok tt, extend w (presentation E prefix event)).
Proof. intros H. by rewrite print_event_run, (event_line_record _ _ _ H). Qed.

(** ** The loop of [cmd_today] *)

Lemma event_record_presentable d event :
  event_record event = true -> presentable d event = true.
Proof.
  unfold presentable, dated_record. intros H. rewrite H.
  apply andb_prop in H as [-> _]. cbn. apply orb_true_r.
Qed.

Lemma dated_record_presentable d event :
  dated_record event = true -> starts_on d event = false -> presentable d event = true.
Proof. unfold presentable. by intros -> ->. Qed.

Lemma today_loop_log E d events : forall count w,
  forallb (presentable d) events = true ->
  run (today_loop E events d count) w =
    (Ok (count + List.length (List.filter (starts_on d) events))%nat,
     extend w (flat_map (presentation E "") (List.filter (starts_on d) events))).
Proof.
  induction events as [|event rest IH]; intros count w Hall.
  - cbn. by rewrite extend_nil, Nat.add_0_r.
  - cbn in Hall. apply andb_prop in Hall as [Hev Hrest].
    apply andb_prop in Hev as [Hdated Hrec].
    apply bool_decide_eq_true in Hdated as [s Hs].
    cbn. rewrite (start_of_string _ _ Hs). cbn.
    unfold starts_on in *. rewrite Hs in *.
    destruct (String.prefix d s); cbn in Hrec |- *.
    + rewrite (event_line_record _ _ _ Hrec). cbn.
      rewrite IH by done. rewrite !extend_extend. cbn.
      repeat f_equal. lia.
    + by rewrite IH.
Qed.

Lemma cmd_today_log E svc fields events w :
  events_list svc "primary" (now_isoformat E +:+ "Z") 20 true "startTime" = Ok (PDict fields) ->
  fields !! "items" = Some (PList events) ->
  forallb (presentable (today_isoformat E)) events = true ->
  run (cmd_today E svc) w = (Ok tt, extend w (agenda_header E ++ agenda_body E events)).
Proof.
  intros Hlist Hitems Hall. unfold cmd_today. cbn.
  rewrite Hlist. cbn. rewrite Hitems. cbn.
  destruct events as [|event rest].
  - cbn. by rewrite !extend_extend.
  - rewrite bool_decide_eq_false_2 by done. cbn [negb].
    cbn -[today_loop forallb List.filter].
    rewrite run_bind, today_loop_log by done.
    destruct (List.filter _ (event :: rest)) as [|x sel]; cbn; rewrite ?extend_extend.
    + rewrite bool_decide_eq_true_2 by done. cbn. by rewrite extend_extend.
    + rewrite bool_decide_eq_false_2 by done. done.
Qed.

Lemma presented_agenda E events :
  presented (agenda_header E ++ agenda_body E events) =
    List.filter (starts_on (today_isoformat E)) events.
Proof.
  unfold agenda_body. rewrite presented_app.
  destruct events as [|event rest]; [done|].
  destruct (List.filter _ (event :: rest)) as [|x sel]; [done|].
  change (presented (agenda_header E)) with (@nil pyval).
  apply (presented_presentations E "" (x :: sel)).
Qed.

(** ** The selection made by the loop, on arbitrary input *)

Lemma today_loop_presented E d events : forall count w,
  presented (log (run (today_loop E events d count) w).2) =
    presented (log w) ++ selection E d events.
Proof.
  induction events as [|event rest IH]; intros count w.
  - cbn. by rewrite app_nil_r.
  - cbn [today_loop selection]. unfold today_test.
    rewrite !run_bind. cbn [lift run].
    destruct (start_of event) as [start|e]; cbn; [|by rewrite app_nil_r].
    destruct (py_startswith start d) as [[]|e]; cbn; [| |by rewrite app_nil_r].
    + destruct (event_line E event "") as [line|e]; cbn.
      * rewrite IH. cbn. rewrite ?presented_app. cbn. by rewrite <- ?app_assoc.
      * rewrite ?presented_app. cbn. by rewrite <- ?app_assoc.
    + apply IH.
Qed.

Lemma today_selection_selection E d events :
  today_selection E d events = selection E d events.
Proof. unfold today_selection. by rewrite today_loop_presented. Qed.

Lemma selection_sublist E d events : sublist (selection E d events) events.
Proof.
  induction events as [|event rest IH]; cbn; [done|].
  destruct (today_test d event) as [[]|e].
  - apply sublist_skip. destruct (event_line E event ""); [done|apply sublist_nil_l].
  - by apply sublist_cons.
  - apply sublist_nil_l.
Qed.

Lemma selection_idempotent E d events :
  selection E d (selection E d events) = selection E d events.
Proof.
  induction events as [|event rest IH]; cbn; [done|].
  destruct (today_test d event) as [[]|e] eqn:Htest; [|done|done].
  cbn. rewrite Htest.
  destruct (event_line E event "") as [line|e']; [|done].
  by rewrite IH.
Qed.

Lemma filter_nil_presentable d events :
  forallb dated_record events = true ->
  List.filter (starts_on d) events = [] ->
  forallb (presentable d) events = true.
Proof.
  induction events as [|event rest IH]; [done|]. cbn.
  intros [Hd Hrest]%andb_prop.
  destruct (starts_on d event) eqn:Hs; [done|]. intros Hnil.
  by rewrite (dated_record_presentable _ _ Hd Hs), IH.
Qed.

Lemma forallb_event_record_presentable d events :
  forallb event_record events = true -> forallb (presentable d) events = true.
Proof.
  induction events as [|event rest IH]; [done|]. cbn.
  intros [Hd Hrest]%andb_prop. by rewrite (event_record_presentable _ _ Hd), IH.
Qed.

(** ** The today filter *)

(** C1. For every list of event records returned by the service and
    today's date string [d], [cmd_today] ends normally and hands to
    [print_event] exactly the events whose start value (the [dateTime]
    field if present, otherwise the [date] field) begins with [d]: every
    element is examined, none is skipped after a mismatch, and the input
    order is kept. The log it leaves is the header followed by the
    presentation of each selected event. *)
Theorem today_filter_selects_events_starting_today E svc fields events w :
  events_list svc "primary" (now_isoformat E +:+ "Z") 20 true "startTime" = Ok (PDict fields) ->
  fields !! "items" = Some (PList events) ->
  forallb event_record events = true ->
  run (cmd_today E svc) w = (Ok tt, extend w (agenda_header E ++ agenda_body E events)) /\
  presented (log (run (cmd_today E svc) w).2) =
    presented (log w) ++ List.filter (starts_on (today_isoformat E)) events.
Proof.
  intros Hlist Hitems Hrec.
  pose proof (cmd_today_log E svc fields events w Hlist Hitems
    (forallb_event_record_presentable _ _ Hrec)) as Hrun.
  split; [done|]. rewrite Hrun. cbn [snd extend log].
  by rewrite presented_app, presented_agenda.
Qed.

(** The example of the specification: starts ["2024-01-01T09:00:00"] and
    ["2024-01-02T10:00:00"], today ["2024-01-01"]: exactly the first event
    is selected. *)
Lemma today_filter_selects_first_of_two :
  presented (log (run (cmd_today
      (Demo.environment (PDict (Demo.listing [Demo.standup; Demo.review])))
      (Demo.calendar (PDict (Demo.listing [Demo.standup; Demo.review]))))
    empty_world).2) = [Demo.standup].
Proof.
  apply (today_filter_selects_events_starting_today
    (Demo.environment (PDict (Demo.listing [Demo.standup; Demo.review])))
    (Demo.calendar (PDict (Demo.listing [Demo.standup; Demo.review])))
    (Demo.listing [Demo.standup; Demo.review])
    [Demo.standup; Demo.review] empty_world).
  - reflexivity.
  - vm_compute. reflexivity.
  - vm_compute. reflexivity.
Defined.

(** C10. For every list of values and every date string, the events the
    loop hands to [print_event] form an order-preserving subsequence of the
    input, and selecting again from the selection changes nothing. *)
Theorem today_selection_is_idempotent_subsequence E d events :
  sublist (today_selection E d events) events /\
  today_selection E d (today_selection E d events) = today_selection E d events.
Proof.
  rewrite !today_selection_selection. split.
  - apply selection_sublist.
  - apply selection_idempotent.
Qed.

(** C7, as the code has it. For every non-empty list of events with a
    textual start none of which begins with today's date string, the loop
    selects nothing and [cmd_today] prints the header and then
    ["Nothing left for today! 🎉"]. *)
Theorem today_without_match_prints_nothing_left E svc fields events w :
  events_list svc "primary" (now_isoformat E +:+ "Z") 20 true "startTime" = Ok (PDict fields) ->
  fields !! "items" = Some (PList events) ->
  events <> [] ->
  forallb dated_record events = true ->
  List.filter (starts_on (today_isoformat E)) events = [] ->
  run (cmd_today E svc) w =
    (Ok tt, extend w (agenda_header E ++ [Print "Nothing left for today! 🎉"])).
Proof.
  intros Hlist Hitems Hne Hdated Hnone.
  rewrite (cmd_today_log E svc fields events w Hlist Hitems
    (filter_nil_presentable _ _ Hdated Hnone)).
  unfold agenda_body. rewrite Hnone. by destruct events.
Qed.

Lemma today_without_match_example :
  printed (log (run (cmd_today
      (Demo.environment (PDict (Demo.listing [Demo.review])))
      (Demo.calendar (PDict (Demo.listing [Demo.review]))))
    empty_world).2) =
  ["📅 Agenda for Today (2024-01-01):"; "----------------------------------------";
   "Nothing left for today! 🎉"].
Proof.
  rewrite (today_without_match_prints_nothing_left
    (Demo.environment (PDict (Demo.listing [Demo.review])))
    (Demo.calendar (PDict (Demo.listing [Demo.review])))
    (Demo.listing [Demo.review]) [Demo.review] empty_world).
  - reflexivity.
  - reflexivity.
  - vm_compute. reflexivity.
  - discriminate.
  - vm_compute. reflexivity.
  - vm_compute. reflexivity.
Defined.

(** C7 as stated fails on the empty list: no event matches, yet the
    command prints ["No events found."] and never the
    ["Nothing left for today!"] line. *)
Lemma today_empty_listing_prints_no_events_found :
  List.filter (starts_on "2024-01-01") [] = [] /\
  printed (log (run (cmd_today
      (Demo.environment (PDict (Demo.listing [])))
      (Demo.calendar (PDict (Demo.listing []))))
    empty_world).2) =
  ["📅 Agenda for Today (2024-01-01):"; "----------------------------------------";
   "No events found."] /\
  ~ In (Print "Nothing left for today! 🎉")
      (log (run (cmd_today
        (Demo.environment (PDict (Demo.listing [])))
        (Demo.calendar (PDict (Demo.listing []))))
      empty_world).2).
Proof.
  split; [reflexivity|]. split; [vm_compute; reflexivity|].
  vm_compute. intros [H|[H|[H|[H|[]]]]]; discriminate H.
Qed.

(** ** The commands [next] and [add] *)

(** C8. When the list returned for [next] is empty (or absent),
    [cmd_next] prints ["No upcoming events found."] and never enters
    [print_event]; when it is non-empty, [cmd_next] does exactly what
    [print_event] does on its first element, and presents no other
    element. *)
Theorem cmd_next_empty_or_first E svc fields w :
  events_list svc "primary" (utcnow_isoformat E) 1 true "startTime" = Ok (PDict fields) ->
  let asked := extend w [ListEvents "primary" (utcnow_isoformat E) 1 true "startTime"] in
  (fields !! "items" = None \/ fields !! "items" = Some (PList []) ->
     run (cmd_next E svc) w = (Ok tt, extend asked [Print "No upcoming events found."]) /\
     presented (log (run (cmd_next E svc) w).2) = presented (log w)) /\
  (forall first rest, fields !! "items" = Some (PList (first :: rest)) ->
     run (cmd_next E svc) w = run (print_event E first "⏭️  NEXT: ") asked /\
     presented (log (run (cmd_next E svc) w).2) = presented (log w) ++ [first]).
Proof.
  intros Hlist asked. split.
  - intros Hitems.
    assert (run (cmd_next E svc) w =
      (Ok tt, extend asked [Print "No upcoming events found."])) as Hrun.
    { unfold cmd_next. cbn. rewrite Hlist. cbn. by destruct Hitems as [-> | ->]. }
    split; [done|]. rewrite Hrun. cbn. rewrite <- app_assoc, presented_app. cbn.
    by rewrite app_nil_r.
  - intros first rest Hitems.
    assert (run (cmd_next E svc) w = run (print_event E first "⏭️  NEXT: ") asked) as Hrun.
    { unfold cmd_next. cbn -[print_event]. rewrite Hlist. cbn -[print_event].
      rewrite Hitems. cbn -[print_event]. done. }
    split; [done|]. rewrite Hrun, print_event_run.
    destruct (event_line E first "⏭️  NEXT: "); cbn;
      rewrite <- ?app_assoc, !presented_app; cbn; by rewrite ?app_nil_r.
Qed.

Lemma cmd_next_example :
  run (cmd_next (Demo.environment (PDict (Demo.listing [])))
        (Demo.calendar (PDict (Demo.listing [])))) empty_world =
    (Ok tt, extend empty_world
       [ListEvents "primary" "2024-01-01T08:00:00+00:00" 1 true "startTime";
        Print "No upcoming events found."]) /\
  printed (log (run (cmd_next (Demo.environment (PDict (Demo.listing [Demo.standup; Demo.review])))
        (Demo.calendar (PDict (Demo.listing [Demo.standup; Demo.review])))) empty_world).2) =
    ["⏭️  NEXT: " +:+ ESC +:+ "[96m[09:00 AM]" +:+ ESC +:+ "[0m Standup"].
Proof.
  split.
  - apply (cmd_next_empty_or_first (Demo.environment (PDict (Demo.listing [])))
      (Demo.calendar (PDict (Demo.listing []))) (Demo.listing []) empty_world).
    + reflexivity.
    + right. vm_compute. reflexivity.
  - destruct (cmd_next_empty_or_first
      (Demo.environment (PDict (Demo.listing [Demo.standup; Demo.review])))
      (Demo.calendar (PDict (Demo.listing [Demo.standup; Demo.review])))
      (Demo.listing [Demo.standup; Demo.review]) empty_world eq_refl) as [_ Hfirst].
    destruct (Hfirst Demo.standup [Demo.review]) as [-> _].
    + vm_compute. reflexivity.
    + vm_compute. reflexivity.
Defined.

(** C9. For every list of words, [cmd_add] sends to quick-add the words
    joined by single spaces, and when the service answers with an event
    whose [summary] and [htmlLink] are texts it prints both verbatim. *)
Theorem cmd_add_sends_joined_text E svc words fields summary link w :
  quickAdd svc "primary" (String.concat " " words) = Ok (PDict fields) ->
  fields !! "summary" = Some (PStr summary) ->
  fields !! "htmlLink" = Some (PStr link) ->
  run (cmd_add E svc words) w =
    (Ok tt, extend w
       [Print ("Adding: '" +:+ String.concat " " words +:+ "'...");
        QuickAdd "primary" (String.concat " " words);
        Print ("✅ Created event: " +:+ summary);
        Print ("   Link: " +:+ link)]).
Proof.
  intros Hadd Hsummary Hlink. unfold cmd_add. cbn.
  rewrite Hadd. cbn. rewrite Hsummary, Hlink. cbn.
  by rewrite !extend_extend.
Qed.

Lemma cmd_add_example :
  run (cmd_add (Demo.environment (PDict Demo.created)) (Demo.calendar (PDict Demo.created))
        ["Dinner at 7pm"]) empty_world =
    (Ok tt, extend empty_world
       [Print "Adding: 'Dinner at 7pm'...";
        QuickAdd "primary" "Dinner at 7pm";
        Print "✅ Created event: Dinner";
        Print "   Link: https://www.google.com/calendar/event?eid=abc"]) /\
  String.concat " " ["Dinner"; "at"; "7pm"] = "Dinner at 7pm".
Proof.
  split; [|reflexivity].
  apply (cmd_add_sends_joined_text (Demo.environment (PDict Demo.created))
    (Demo.calendar (PDict Demo.created)) ["Dinner at 7pm"] Demo.created
    "Dinner" "https://www.google.com/calendar/event?eid=abc" empty_world).
  - reflexivity.
  - vm_compute. reflexivity.
  - vm_compute. reflexivity.
Defined.

(** ** Credentials *)

(** C6. For every run that starts with a token file holding valid
    credentials, [get_service] reads the token file once, starts neither a
    refresh nor the interactive flow, writes nothing, leaves the token file
    as it was, and returns the service built from those credentials. *)
Theorem valid_token_needs_no_authorization E w data c svc :
  token_file w = Some data ->
  from_authorized_user_file E data = Ok c ->
  valid c = true ->
  build E (Some c) = Ok svc ->
  run (get_service E) w = (Ok svc, extend w [TokenRead; Build]) /\
  token_file (run (get_service E) w).2 = Some data.
Proof.
  intros Hfile Hload Hvalid Hbuild.
  assert (run (get_service E) w = (Ok svc, extend w [TokenRead; Build])) as Hrun.
  { unfold get_service. cbn. rewrite Hfile. cbn. rewrite Hload. cbn.
    rewrite Hvalid. cbn. rewrite Hbuild. by rewrite extend_extend. }
  by rewrite Hrun.
Qed.

Lemma valid_token_example :
  run (get_service (Demo.environment PNone)) (Demo.with_token Demo.stored_token) =
    (Ok (Demo.calendar PNone),
     {| token_file := Some Demo.stored_token; log := [TokenRead; Build] |}).
Proof.
  apply (valid_token_needs_no_authorization (Demo.environment PNone)
    (Demo.with_token Demo.stored_token) Demo.stored_token Demo.stored_creds
    (Demo.calendar PNone)); reflexivity.
Defined.

(** C3, as the code has it. When the token file exists and its content
    does not deserialize, [get_service] raises the error of the
    deserialization right after reading the file: no interactive
    authorization is started and the file is not rewritten. [main] catches
    the error and prints it, so the process ends normally. *)
Theorem corrupt_token_file_is_reported E w data cls msg argv args :
  token_file w = Some data ->
  from_authorized_user_file E data = Raise (Exc cls msg) ->
  parse_args E argv = Ok args ->
  run (get_service E) w = (Raise (Exc cls msg), extend w [TokenRead]) /\
  run (main E argv) w = (Ok tt, extend w [TokenRead; Print ("Error: " +:+ msg)]).
Proof.
  intros Hfile Hload Hargs.
  assert (run (get_service E) w = (Raise (Exc cls msg), extend w [TokenRead])) as Hrun.
  { unfold get_service. cbn. rewrite Hfile. cbn. by rewrite Hload. }
  split; [done|].
  unfold main. rewrite run_bind. cbn [lift run]. rewrite Hargs.
  unfold try_except_Exception, dispatch. cbn [run]. rewrite run_bind, Hrun.
  cbn. by rewrite extend_extend.
Qed.

Lemma corrupt_token_file_example :
  run (main (Demo.environment PNone) ["next"]) (Demo.with_token "not json") =
    (Ok tt,
     {| token_file := Some "not json";
        log := [TokenRead; Print "Error: Expecting value: line 1 column 1 (char 0)"] |}).
Proof.
  apply (corrupt_token_file_is_reported (Demo.environment PNone)
    (Demo.with_token "not json") "not json" "JSONDecodeError"
    "Expecting value: line 1 column 1 (char 0)" ["next"] CmdNext); reflexivity.
Defined.

(** C3 as stated fails: with a token file that does not deserialize,
    [get_service] raises and the interactive flow is never started. *)
Lemma corrupt_token_file_is_not_treated_as_absent :
  (run (get_service (Demo.environment PNone)) (Demo.with_token "not json")).1 =
    Raise (Exc "JSONDecodeError" "Expecting value: line 1 column 1 (char 0)") /\
  ~ In InteractiveFlow
      (log (run (get_service (Demo.environment PNone)) (Demo.with_token "not json")).2) /\
  In InteractiveFlow
      (log (run (get_service (Demo.environment PNone)) empty_world).2).
Proof.
  split; [reflexivity|]. split.
  - vm_compute. intros [H|[]]. discriminate H.
  - vm_compute. tauto.
Qed.

(** ** The top level *)

(** C4, as the code has it. [main] has one failure path for what happens
    after argument parsing: every exception derived from [Exception] that
    credential acquisition, the request or the presentation raises is
    caught, [Error: <message>] is printed and [main] returns normally.
    Argument parsing and subcommand validation run before the [try]
    statement: what they raise ([SystemExit] with status 2 for a usage
    error) leaves [main], and so does an exception that is not derived
    from [Exception]. *)
Theorem main_single_failure_path E argv w :
  match parse_args E argv with
  | Raise e => run (main E argv) w = (Raise e, w)
  | Ok args =>
      match run (dispatch E args) w with
      | (Raise (Exc cls msg), w') =>
          run (main E argv) w = (Ok tt, extend w' [Print ("Error: " +:+ msg)])
      | (outcome, w') => run (main E argv) w = (outcome, w')
      end
  end.
Proof.
  unfold main. cbn -[dispatch].
  destruct (parse_args E argv) as [args|e]; cbn -[dispatch]; [|done].
  destruct (run (dispatch E args) w) as [[[]|[cls msg| |status]] w']; done.
Qed.

(** C4 as stated fails on a usage error: [add] without text ends the
    process with status 2 and prints no [Error:] line. *)
Lemma usage_error_is_not_caught :
  run (main (Demo.environment PNone) ["add"]) empty_world =
    (Raise (SystemExit 2), empty_world).
Proof. reflexivity. Qed.

(** ** The presenter *)

(** C5, as the code has it. For every event record with a summary and a
    textual start, [print_event] raises nothing and returns after printing
    one line; a start that does not parse as a date-time is shown as
    ["All Day"]. *)
Theorem print_event_returns_on_event_records E event prefix w :
  event_record event = true ->
  run (print_event E event prefix) w =
    (Ok tt, extend w [Present event prefix; Print (rendered E prefix event)]) /\
  (forall s e, start_string event = Some s -> Datetime.fromisoformat "" s = Raise e ->
     rendered E prefix event =
       prefix +:+ ESC +:+ "[96m[All Day]" +:+ ESC +:+ "[0m "
         +:+ py_str E (default PNone (summary_value event))).
Proof.
  intros Hrec. split; [by apply print_event_record|].
  intros s e Hs Hfail. unfold rendered, time_token. by rewrite Hs; cbn; rewrite Hfail.
Qed.

Lemma print_event_example :
  run (print_event (Demo.environment PNone) (Demo.timed_event "tomorrow" "Standup") "")
      empty_world =
    (Ok tt, extend empty_world
       [Present (Demo.timed_event "tomorrow" "Standup") "";
        Print (ESC +:+ "[96m[All Day]" +:+ ESC +:+ "[0m Standup")]).
Proof.
  destruct (print_event_returns_on_event_records (Demo.environment PNone)
    (Demo.timed_event "tomorrow" "Standup") "" empty_world) as [-> Hday].
  - vm_compute. reflexivity.
  - rewrite (Hday "tomorrow" (Exc "ValueError" "Invalid isoformat string: ")).
    + vm_compute. reflexivity.
    + vm_compute. reflexivity.
    + vm_compute. reflexivity.
Defined.

(** C5 as stated fails: an event without [summary] makes [print_event]
    raise [KeyError], and an event whose start has neither [dateTime] nor
    [date] makes it raise [TypeError]; nothing is printed. *)
Lemma print_event_raises_on_other_shapes :
  run (print_event (Demo.environment PNone) (Demo.untitled_event "2024-01-01T09:00:00") "")
      empty_world =
    (Raise (Exc "KeyError" "'summary'"),
     extend empty_world [Present (Demo.untitled_event "2024-01-01T09:00:00") ""]) /\
  run (print_event (Demo.environment PNone)
         (PDict {[ "start" := PDict ∅; "summary" := PStr "Standup" ]}) "")
      empty_world =
    (Raise (Exc "TypeError" "fromisoformat: argument must be str"),
     extend empty_world
       [Present (PDict {[ "start" := PDict ∅; "summary" := PStr "Standup" ]}) ""]).
Proof. split; vm_compute; reflexivity. Qed.

(** The time token of the specification's first example. *)
Lemma afternoon_time_token : time_token "2024-01-01T14:30:00" = "02:30 PM".
Proof. vm_compute. reflexivity. Qed.

(** C2, at the all-day example. The start of an all-day event is a date,
    and [fromisoformat] accepts a date: it is midnight of that day. So
    [print_event] shows an all-day event at ["12:00 AM"] and not as
    ["All Day"]. *)
Theorem all_day_event_is_shown_at_midnight E summary prefix w :
  time_token "2024-01-01" = "12:00 AM" /\
  run (print_event E (Demo.all_day_event "2024-01-01" summary) prefix) w =
    (Ok tt, extend w
       [Present (Demo.all_day_event "2024-01-01" summary) prefix;
        Print (prefix +:+ ESC +:+ "[96m[12:00 AM]" +:+ ESC +:+ "[0m " +:+ summary)]).
Proof.
  split; [vm_compute; reflexivity|].
  rewrite print_event_record by (vm_compute; reflexivity).
  unfold presentation, rendered. repeat f_equal.
Qed.

(** ** Credential acquisition: the remaining paths *)

(** X1. Expired credentials that carry a refresh token are refreshed: the
    interactive flow is not started, the token file is rewritten with the
    refreshed credentials and the service is built from them. *)
Theorem expired_token_is_refreshed E w data c t c' svc :
  token_file w = Some data ->
  from_authorized_user_file E data = Ok c ->
  valid c = false ->
  expired c = true ->
  refresh_token c = Some t ->
  t <> "" ->
  refresh E c = Ok c' ->
  build E (Some c') = Ok svc ->
  run (get_service E) w =
    (Ok svc,
     {| token_file := Some (to_json c');
        log := log w ++ [TokenRead; RefreshRequest; TokenWrite (to_json c'); Build] |}).
Proof.
  intros Hfile Hload Hvalid Hexpired Htoken Hne Hrefresh Hbuild.
  unfold get_service. cbn. rewrite Hfile. cbn. rewrite Hload. cbn.
  rewrite Hvalid, Hexpired, Htoken. cbn.
  rewrite bool_decide_eq_false_2 by done. cbn.
  rewrite Hrefresh. cbn. rewrite Hbuild. cbn.
  unfold extend; cbn; by rewrite <- !app_assoc.
Qed.

Lemma expired_token_example :
  run (get_service (Scenario.office Scenario.loader (fun _ => Ok Demo.fresh_creds)
         Scenario.consent (Ok PNone)))
      (Demo.with_token (to_json Scenario.expired_creds)) =
    (Ok (Scenario.desk (Ok PNone)),
     {| token_file := Some (to_json Demo.fresh_creds);
        log := [TokenRead; RefreshRequest; TokenWrite (to_json Demo.fresh_creds); Build] |}).
Proof.
  apply (expired_token_is_refreshed
    (Scenario.office Scenario.loader (fun _ => Ok Demo.fresh_creds) Scenario.consent (Ok PNone))
    (Demo.with_token (to_json Scenario.expired_creds)) (to_json Scenario.expired_creds)
    Scenario.expired_creds "1//0g" Demo.fresh_creds (Scenario.desk (Ok PNone)));
    try reflexivity.
  discriminate.
Defined.

(** X2. Without a token file, and likewise with stored credentials that
    are neither valid nor refreshable, [get_service] runs the interactive
    flow, stores the credentials it yields in the token file and builds the
    service from them; no refresh is requested. *)
Theorem unusable_token_starts_interactive_flow E w fl c svc :
  match token_file w with
  | None => True
  | Some data =>
      exists c0, from_authorized_user_file E data = Ok c0 /\
        valid c0 = false /\ refreshable (Some c0) = false
  end ->
  from_client_secrets_file E = Ok fl ->
  run_local_server fl = Ok c ->
  build E (Some c) = Ok svc ->
  run (get_service E) w =
    (Ok svc,
     {| token_file := Some (to_json c);
        log := log w ++ match token_file w with Some _ => [TokenRead] | None => [] end
                 ++ [SecretsRead; InteractiveFlow; TokenWrite (to_json c); Build] |}).
Proof.
  intros Hstored Hsecrets Hflow Hbuild.
  unfold get_service. cbn. destruct (token_file w) as [data|]; cbn.
  - destruct Hstored as (c0 & Hload & Hvalid & Hrefreshable).
    rewrite Hload. cbn. rewrite Hvalid. cbn.
    cbn in Hrefreshable. rewrite Hrefreshable. cbn.
    rewrite Hsecrets. cbn. rewrite Hflow. cbn. rewrite Hbuild.
    unfold extend; cbn; by rewrite <- !app_assoc.
  - rewrite Hsecrets. cbn. rewrite Hflow. cbn. rewrite Hbuild.
    unfold extend; cbn; by rewrite <- !app_assoc.
Qed.

Lemma first_run_example :
  run (get_service (Scenario.office Scenario.loader (fun c => Ok c) Scenario.consent (Ok PNone)))
      empty_world =
    (Ok (Scenario.desk (Ok PNone)),
     {| token_file := Some (to_json Demo.fresh_creds);
        log := [SecretsRead; InteractiveFlow; TokenWrite (to_json Demo.fresh_creds); Build] |}) /\
  run (get_service (Scenario.office Scenario.loader (fun c => Ok c) Scenario.consent (Ok PNone)))
      (Demo.with_token (to_json Scenario.bare_creds)) =
    (Ok (Scenario.desk (Ok PNone)),
     {| token_file := Some (to_json Demo.fresh_creds);
        log := [TokenRead; SecretsRead; InteractiveFlow;
                TokenWrite (to_json Demo.fresh_creds); Build] |}).
Proof.
  split.
  - apply (unusable_token_starts_interactive_flow
      (Scenario.office Scenario.loader (fun c => Ok c) Scenario.consent (Ok PNone))
      empty_world {| run_local_server := Ok Demo.fresh_creds |} Demo.fresh_creds
      (Scenario.desk (Ok PNone))); reflexivity || exact I.
  - apply (unusable_token_starts_interactive_flow
      (Scenario.office Scenario.loader (fun c => Ok c) Scenario.consent (Ok PNone))
      (Demo.with_token (to_json Scenario.bare_creds))
      {| run_local_server := Ok Demo.fresh_creds |} Demo.fresh_creds
      (Scenario.desk (Ok PNone))); try reflexivity.
    exists Scenario.bare_creds. repeat split; reflexivity.
Defined.

(** X3. When re-authorization fails (the refresh request, reading the
    client secrets, or the interactive flow raises), [get_service] raises
    that exception, the token file keeps its content and the service is not
    built. *)
Theorem failed_authorization_keeps_token_file E w e :
  (exists data c, token_file w = Some data /\ from_authorized_user_file E data = Ok c /\
     valid c = false /\ refreshable (Some c) = true /\ refresh E c = Raise e) \/
  ((token_file w = None \/
    exists data c, token_file w = Some data /\ from_authorized_user_file E data = Ok c /\
      valid c = false /\ refreshable (Some c) = false) /\
   (from_client_secrets_file E = Raise e \/
    exists fl, from_client_secrets_file E = Ok fl /\ run_local_server fl = Raise e)) ->
  (run (get_service E) w).1 = Raise e /\
  token_file (run (get_service E) w).2 = token_file w /\
  occurrences is_token_write (log (run (get_service E) w).2) =
    occurrences is_token_write (log w) /\
  ~ In Build (drop (List.length (log w)) (log (run (get_service E) w).2)).
Proof.
  unfold occurrences.
  assert (forall l k : list effect,
    (forall x, In x k -> is_token_write x = false /\ x <> Build) ->
    List.length (List.filter is_token_write (l ++ k)) = List.length (List.filter is_token_write l) /\
    ~ In Build (drop (List.length l) (l ++ k))) as Hquiet.
  { intros l k Hk. rewrite List.filter_app, drop_app_length, length_app. split.
    - replace (List.filter is_token_write k) with (@nil effect); [cbn; lia|].
      symmetry. induction k as [|x k IH]; [done|]. cbn.
      rewrite (proj1 (Hk x (or_introl eq_refl))). apply IH. intros y Hy. apply Hk. by right.
    - intros Hin. by destruct (Hk _ Hin). }
  intros [(data & c & Hfile & Hload & Hvalid & Hrefreshable & Hfail) | [Hstored Hfail]].
  - unfold get_service. cbn. rewrite Hfile. cbn. rewrite Hload. cbn.
    rewrite Hvalid. cbn. cbn in Hrefreshable. rewrite Hrefreshable. cbn.
    rewrite Hfail. cbn. rewrite <- ?app_assoc. split; [done|]; split; [done|]; apply Hquiet; cbn; intuition (subst; done).
  - unfold get_service. cbn.
    destruct Hstored as [Hfile | (data & c & Hfile & Hload & Hvalid & Hrefreshable)];
      rewrite Hfile; cbn.
    + destruct Hfail as [Hfail | (fl & Hsecrets & Hfail)].
      * rewrite Hfail. cbn. split; [done|]; split; [done|]; apply Hquiet; cbn; intuition (subst; done).
      * rewrite Hsecrets. cbn. rewrite Hfail. cbn. rewrite <- ?app_assoc.
        split; [done|]; split; [done|]; apply Hquiet; cbn; intuition (subst; done).
    + rewrite Hload. cbn. rewrite Hvalid. cbn. cbn in Hrefreshable.
      rewrite Hrefreshable. cbn.
      destruct Hfail as [Hfail | (fl & Hsecrets & Hfail)].
      * rewrite Hfail. cbn. rewrite <- ?app_assoc.
        split; [done|]; split; [done|]; apply Hquiet; cbn; intuition (subst; done).
      * rewrite Hsecrets. cbn. rewrite Hfail. cbn. rewrite <- ?app_assoc.
        split; [done|]; split; [done|]; apply Hquiet; cbn; intuition (subst; done).
Qed.

Lemma failed_refresh_example :
  (run (get_service (Scenario.office Scenario.loader (fun _ => Raise Scenario.busy)
         Scenario.consent (Ok PNone)))
      (Demo.with_token (to_json Scenario.expired_creds))).1 = Raise Scenario.busy /\
  token_file (run (get_service (Scenario.office Scenario.loader (fun _ => Raise Scenario.busy)
         Scenario.consent (Ok PNone)))
      (Demo.with_token (to_json Scenario.expired_creds))).2 =
    Some (to_json Scenario.expired_creds).
Proof.
  destruct (failed_authorization_keeps_token_file
    (Scenario.office Scenario.loader (fun _ => Raise Scenario.busy) Scenario.consent (Ok PNone))
    (Demo.with_token (to_json Scenario.expired_creds)) Scenario.busy) as (Hraise & Hfile & _).
  - left. exists (to_json Scenario.expired_creds), Scenario.expired_creds.
    repeat split; reflexivity.
  - split; [exact Hraise | exact Hfile].
Defined.

(** X4. In every run, whatever the environment answers, [get_service]
    reads the token file exactly when it exists and never twice, writes it
    at most once, and never both refreshes and runs the interactive flow.
    Without a write the token file keeps its content; after a write it holds
    what was written. *)
Theorem get_service_token_file_accesses E w :
  exists delta,
    log (run (get_service E) w).2 = log w ++ delta /\
    occurrences is_token_read delta =
      match token_file w with Some _ => 1%nat | None => 0%nat end /\
    (occurrences is_token_write delta <= 1)%nat /\
    (occurrences is_refresh delta + occurrences is_interactive delta <= 1)%nat /\
    (occurrences is_token_write delta = 0%nat ->
       token_file (run (get_service E) w).2 = token_file w) /\
    (forall data, In (TokenWrite data) delta ->
       token_file (run (get_service E) w).2 = Some data).
Proof.
  unfold get_service, interactive_authorization, occurrences. cbn.
  destruct (token_file w) as [data|] eqn:Hfile; cbn.
  - destruct (from_authorized_user_file E data) as [c|e]; cbn.
    + destruct (valid c); cbn.
      * destruct (build E (Some c)); eexists;
          (split; [unfold extend; cbn; rewrite <- ?app_assoc; reflexivity|]);
          cbn; repeat split; intros; try lia; try done; intuition discriminate.
      * destruct (expired c && _); cbn.
        -- destruct (refresh E c) as [c'|e]; cbn.
           ++ destruct (build E (Some c')); eexists;
                (split; [unfold extend; cbn; rewrite <- ?app_assoc; reflexivity|]);
                cbn; repeat split; intros; try lia; try done; intuition congruence.
           ++ eexists; (split; [unfold extend; cbn; rewrite <- ?app_assoc; reflexivity|]);
                cbn; repeat split; intros; try lia; try done; intuition discriminate.
        -- destruct (from_client_secrets_file E) as [fl|e]; cbn.
           ++ destruct (run_local_server fl) as [c'|e]; cbn.
              ** destruct (build E (Some c')); eexists;
                   (split; [unfold extend; cbn; rewrite <- ?app_assoc; reflexivity|]);
                   cbn; repeat split; intros; try lia; try done; intuition congruence.
              ** eexists; (split; [unfold extend; cbn; rewrite <- ?app_assoc; reflexivity|]);
                   cbn; repeat split; intros; try lia; try done; intuition discriminate.
           ++ eexists; (split; [unfold extend; cbn; rewrite <- ?app_assoc; reflexivity|]);
                cbn; repeat split; intros; try lia; try done; intuition discriminate.
    + eexists; (split; [unfold extend; cbn; rewrite <- ?app_assoc; reflexivity|]);
        cbn; repeat split; intros; try lia; try done; intuition discriminate.
  - destruct (from_client_secrets_file E) as [fl|e]; cbn.
    + destruct (run_local_server fl) as [c'|e]; cbn.
      * destruct (build E (Some c')); eexists;
          (split; [unfold extend; cbn; rewrite <- ?app_assoc; reflexivity|]);
          cbn; repeat split; intros; try lia; try done; intuition congruence.
      * eexists; (split; [unfold extend; cbn; rewrite <- ?app_assoc; reflexivity|]);
          cbn; repeat split; intros; try lia; try done; intuition discriminate.
    + eexists; (split; [unfold extend; cbn; rewrite <- ?app_assoc; reflexivity|]);
        cbn; repeat split; intros; try lia; try done; intuition discriminate.
Qed.

(** X5. What one run writes, the next run reads: after a first run
    without token file that completes the interactive flow, a second run
    (whose loader accepts the stored text as valid credentials) reads the
    file, starts no flow and leaves the file as the first run wrote it. *)
Theorem second_run_reuses_written_token E w fl c svc c2 svc2 :
  token_file w = None ->
  from_client_secrets_file E = Ok fl ->
  run_local_server fl = Ok c ->
  build E (Some c) = Ok svc ->
  from_authorized_user_file E (to_json c) = Ok c2 ->
  valid c2 = true ->
  build E (Some c2) = Ok svc2 ->
  run (get_service E;; get_service E) w =
    (Ok svc2,
     {| token_file := Some (to_json c);
        log := log w ++ [SecretsRead; InteractiveFlow; TokenWrite (to_json c); Build;
                         TokenRead; Build] |}).
Proof.
  intros Hfile Hsecrets Hflow Hbuild Hload Hvalid Hbuild2.
  rewrite run_bind. unfold get_service at 1. cbn. rewrite Hfile. cbn.
  rewrite Hsecrets. cbn. rewrite Hflow. cbn. rewrite Hbuild.
  unfold get_service. cbn. rewrite Hload. cbn. rewrite Hvalid. cbn. rewrite Hbuild2.
  unfold extend; cbn. by rewrite <- !app_assoc.
Qed.

Lemma second_run_example :
  run (get_service (Scenario.office Scenario.loader (fun c => Ok c) Scenario.consent (Ok PNone));;
       get_service (Scenario.office Scenario.loader (fun c => Ok c) Scenario.consent (Ok PNone)))
      empty_world =
    (Ok (Scenario.desk (Ok PNone)),
     {| token_file := Some (to_json Demo.fresh_creds);
        log := [SecretsRead; InteractiveFlow; TokenWrite (to_json Demo.fresh_creds); Build;
                TokenRead; Build] |}).
Proof.
  apply (second_run_reuses_written_token
    (Scenario.office Scenario.loader (fun c => Ok c) Scenario.consent (Ok PNone))
    empty_world {| run_local_server := Ok Demo.fresh_creds |} Demo.fresh_creds
    (Scenario.desk (Ok PNone)) Demo.fresh_creds (Scenario.desk (Ok PNone))); reflexivity.
Defined.

(** ** [cmd_today] on arbitrary answers *)

Lemma printed_presentations E prefix events :
  printed (flat_map (presentation E prefix) events) = rendered E prefix <$> events.
Proof. induction events as [|event rest IH]; cbn; by rewrite ?IH. Qed.

Lemma today_test_dated d event :
  dated_record event = true -> today_test d event = Ok (starts_on d event).
Proof.
  intros [s Hs]%bool_decide_eq_true. unfold today_test, starts_on.
  by rewrite (start_of_string _ _ Hs), Hs.
Qed.

Lemma today_test_undated d event :
  dated_record event = false -> exists e, today_test d event = Raise e.
Proof.
  intros Hnone%bool_decide_eq_false. unfold today_test, start_of.
  assert (start_string event = None) as Hs.
  { destruct (start_string event); [|done]. by destruct Hnone. }
  clear Hnone. unfold start_string, start_value in Hs.
  destruct event as [| | | | |? |fields]; cbn; eauto.
  destruct (fields !! "start") as [[| | | | | |st]|]; cbn; eauto.
  destruct (st !! "dateTime") as [v|]; cbn.
  - destruct v; cbn; eauto. done.
  - destruct (st !! "date") as [v|]; cbn; eauto. destruct v; cbn; eauto. done.
Qed.

Lemma event_line_untitled E prefix event :
  dated_record event = true -> event_record event = false ->
  event_line E event prefix = KeyError "'summary'".
Proof.
  unfold event_record, dated_record. intros Hd. rewrite Hd. cbn.
  intros Hnone%bool_decide_eq_false.
  apply bool_decide_eq_true in Hd as [s Hs].
  unfold event_line. rewrite (start_of_string _ _ Hs). cbn.
  unfold start_string, start_value in Hs.
  destruct event as [| | | | |? |fields]; try done. cbn in *.
  destruct (fields !! "summary") as [v|]; [|done]. destruct Hnone. by eexists.
Qed.

(** One iteration of the loop, by the shape of the event. *)
Lemma today_loop_cons E d event rest count w :
  run (today_loop E (event :: rest) d count) w =
    match today_test d event with
    | Ok true =>
        match event_line E event "" with
        | Ok line =>
            run (today_loop E rest d (S count)) (extend w [Present event ""; Print line])
        | Raise e => (Raise e, extend w [Present event ""])
        end
    | Ok false => run (today_loop E rest d count) w
    | Raise e => (Raise e, w)
    end.
Proof.
  cbn [today_loop]. unfold today_test. rewrite run_bind. cbn [lift run].
  destruct (start_of event) as [start|e]; cbn [mbind result_bind]; [|done].
  rewrite run_bind. cbn [lift run].
  destruct (py_startswith start d) as [[]|e]; [|done|done].
  rewrite run_bind, print_event_run. by destruct (event_line E event "").
Qed.

Lemma today_loop_app E d l1 l2 : forall count w,
  run (today_loop E (l1 ++ l2) d count) w =
    match run (today_loop E l1 d count) w with
    | (Ok n, w') => run (today_loop E l2 d n) w'
    | (Raise e, w') => (Raise e, w')
    end.
Proof.
  induction l1 as [|event l1 IH]; intros count w; [done|].
  rewrite <- app_comm_cons, !today_loop_cons.
  destruct (today_test d event) as [[]|e]; [|apply IH|done].
  destruct (event_line E event ""); [apply IH|done].
Qed.

Lemma today_loop_ok E d events : forall count w n w',
  run (today_loop E events d count) w = (Ok n, w') ->
  forallb (presentable d) events = true.
Proof.
  induction events as [|event rest IH]; intros count w n w'; [done|].
  rewrite today_loop_cons. cbn [forallb]. unfold presentable at 1.
  destruct (dated_record event) eqn:Hdated.
  - rewrite (today_test_dated _ _ Hdated).
    destruct (starts_on d event); cbn.
    + destruct (event_record event) eqn:Hrec.
      * rewrite (event_line_record _ _ _ Hrec). apply IH.
      * by rewrite (event_line_untitled _ _ _ Hdated Hrec).
    + apply IH.
  - destruct (today_test_undated d _ Hdated) as [e ->]. done.
Qed.

(** The loop on an event it cannot handle. *)
Lemma today_loop_unpresentable E d event rest count w :
  presentable d event = false ->
  exists e, run (today_loop E (event :: rest) d count) w =
    (Raise e, extend w (if starts_on d event then [Present event ""] else [])).
Proof.
  rewrite today_loop_cons. unfold presentable.
  destruct (dated_record event) eqn:Hdated.
  - rewrite (today_test_dated _ _ Hdated).
    destruct (starts_on d event); cbn; [|done].
    intros Hrec. rewrite (event_line_untitled _ _ _ Hdated Hrec). by eexists.
  - intros _. destruct (today_test_undated d _ Hdated) as [e He]. rewrite He.
    assert (starts_on d event = false) as ->.
    { unfold starts_on. apply bool_decide_eq_false in Hdated.
      destruct (start_string event); [|done]. destruct Hdated. by eexists. }
    exists e. by rewrite extend_nil.
Qed.

(** X6. With a list in the answer, [cmd_today] ends normally exactly
    when every event has a textual start and every event that starts today
    has a summary. *)
Theorem cmd_today_returns_iff_presentable E svc fields events w :
  events_list svc "primary" (now_isoformat E +:+ "Z") 20 true "startTime" = Ok (PDict fields) ->
  fields !! "items" = Some (PList events) ->
  (run (cmd_today E svc) w).1 = Ok tt <->
  forallb (presentable (today_isoformat E)) events = true.
Proof.
  intros Hlist Hitems. split.
  - unfold cmd_today. cbn -[today_loop]. rewrite Hlist. cbn -[today_loop].
    rewrite Hitems. cbn -[today_loop].
    destruct events as [|event rest]; [done|].
    rewrite bool_decide_eq_false_2 by done. cbn -[today_loop forallb].
    rewrite run_bind.
    destruct (run (today_loop E (event :: rest) (today_isoformat E) 0) _)
      as [[n|e] w'] eqn:Hloop; [|done].
    intros _. eapply today_loop_ok, Hloop.
  - intros Hall. by rewrite (cmd_today_log E svc fields events w Hlist Hitems Hall).
Qed.

Lemma cmd_today_returns_example :
  (run (cmd_today (Demo.environment (PDict (Demo.listing [Scenario.untimed_event "Lunch"])))
        (Demo.calendar (PDict (Demo.listing [Scenario.untimed_event "Lunch"]))))
      empty_world).1 <> Ok tt.
Proof.
  intros Hok.
  apply (cmd_today_returns_iff_presentable
    (Demo.environment (PDict (Demo.listing [Scenario.untimed_event "Lunch"])))
    (Demo.calendar (PDict (Demo.listing [Scenario.untimed_event "Lunch"])))
    (Demo.listing [Scenario.untimed_event "Lunch"]) [Scenario.untimed_event "Lunch"]
    empty_world) in Hok.
  - vm_compute in Hok. discriminate Hok.
  - reflexivity.
  - vm_compute. reflexivity.
Defined.

(** X7. At the first event that lacks a textual start, or that starts
    today and lacks a summary, [cmd_today] raises: the matching events before
    it have been printed, nothing after it is examined and no closing line
    is printed. *)
Theorem cmd_today_stops_at_first_unpresentable E svc fields good bad rest w :
  events_list svc "primary" (now_isoformat E +:+ "Z") 20 true "startTime" = Ok (PDict fields) ->
  fields !! "items" = Some (PList (good ++ bad :: rest)) ->
  forallb (presentable (today_isoformat E)) good = true ->
  presentable (today_isoformat E) bad = false ->
  exists e,
    run (cmd_today E svc) w =
      (Raise e,
       extend w (agenda_header E
         ++ flat_map (presentation E "") (List.filter (starts_on (today_isoformat E)) good)
         ++ (if starts_on (today_isoformat E) bad then [Present bad ""] else []))).
Proof.
  intros Hlist Hitems Hgood Hbad.
  unfold cmd_today. cbn -[today_loop]. rewrite Hlist. cbn -[today_loop].
  rewrite Hitems. cbn -[today_loop].
  rewrite bool_decide_eq_false_2 by (by destruct good). cbn -[today_loop].
  rewrite run_bind, today_loop_app, today_loop_log by done.
  destruct (today_loop_unpresentable E (today_isoformat E) bad rest
    (0 + List.length (List.filter (starts_on (today_isoformat E)) good))
    (extend (extend (extend (extend w
       [Print ("📅 Agenda for Today (" +:+ today_header E +:+ "):")])
       [Print "----------------------------------------"])
       [ListEvents "primary" (now_isoformat E +:+ "Z") 20 true "startTime"])
       (flat_map (presentation E "") (List.filter (starts_on (today_isoformat E)) good)))
    Hbad) as [e ->].
  exists e. by rewrite !extend_extend.
Qed.

Lemma cmd_today_stops_example :
  printed (log (run (cmd_today
      (Demo.environment (PDict (Demo.listing
         [Demo.standup; Demo.untitled_event "2024-01-01T11:00:00"; Demo.standup])))
      (Demo.calendar (PDict (Demo.listing
         [Demo.standup; Demo.untitled_event "2024-01-01T11:00:00"; Demo.standup]))))
    empty_world).2) =
  ["📅 Agenda for Today (2024-01-01):"; "----------------------------------------";
   ESC +:+ "[96m[09:00 AM]" +:+ ESC +:+ "[0m Standup"].
Proof.
  destruct (cmd_today_stops_at_first_unpresentable
    (Demo.environment (PDict (Demo.listing
       [Demo.standup; Demo.untitled_event "2024-01-01T11:00:00"; Demo.standup])))
    (Demo.calendar (PDict (Demo.listing
       [Demo.standup; Demo.untitled_event "2024-01-01T11:00:00"; Demo.standup])))
    (Demo.listing [Demo.standup; Demo.untitled_event "2024-01-01T11:00:00"; Demo.standup])
    [Demo.standup] (Demo.untitled_event "2024-01-01T11:00:00") [Demo.standup] empty_world)
    as [e ->].
  - reflexivity.
  - vm_compute. reflexivity.
  - vm_compute. reflexivity.
  - vm_compute. reflexivity.
  - vm_compute. reflexivity.
Defined.

(** ** [cmd_next] and [cmd_add] on arbitrary answers *)

(** X8. Whatever the service answers, [cmd_next] issues one request, for
    one event at most, and after it presents at most one event and prints
    at most one line. *)
Theorem cmd_next_presents_at_most_one E svc w :
  exists delta,
    log (run (cmd_next E svc) w).2 =
      log w ++ ListEvents "primary" (utcnow_isoformat E) 1 true "startTime" :: delta /\
    occurrences is_request delta = 0%nat /\
    (List.length (presented delta) <= 1)%nat /\
    (List.length (printed delta) <= 1)%nat.
Proof.
  unfold cmd_next, occurrences. rewrite run_bind. cbn [emit run]. rewrite run_bind. cbn [lift run].
  destruct (events_list svc _ _ _ _ _) as [events_result|e].
  - rewrite run_bind. cbn [lift run].
    destruct (py_get events_result "items" (PList [])) as [events|e].
    + destruct (truthy events); cbn [negb].
      * rewrite run_bind. cbn [lift run].
        destruct (py_first events) as [first|e].
        -- rewrite print_event_run.
           destruct (event_line E first _); eexists;
             (split; [unfold extend; cbn; rewrite <- ?app_assoc; reflexivity|]);
             cbn; repeat split; lia.
        -- exists []. cbn. repeat split; lia.
      * eexists. split; [unfold extend; cbn; rewrite <- ?app_assoc; reflexivity|].
        cbn; repeat split; lia.
    + exists []. cbn. repeat split; lia.
  - exists []. cbn. repeat split; lia.
Qed.

(** X9. For every dictionary the service answers with, [cmd_add] ends
    normally after printing three lines; a [summary] or [htmlLink] the
    answer lacks is printed as [None]. *)
Theorem cmd_add_prints_None_for_missing_fields E svc words fields w :
  quickAdd svc "primary" (String.concat " " words) = Ok (PDict fields) ->
  let shown key :=
    match fields !! key with
    | Some v => py_str E v
    | None => "None"
    end in
  run (cmd_add E svc words) w =
    (Ok tt, extend w
       [Print ("Adding: '" +:+ String.concat " " words +:+ "'...");
        QuickAdd "primary" (String.concat " " words);
        Print ("✅ Created event: " +:+ shown "summary");
        Print ("   Link: " +:+ shown "htmlLink")]).
Proof.
  intros Hadd shown. unfold cmd_add. cbn. rewrite Hadd. cbn.
  rewrite !extend_extend. unfold shown.
  by destruct (fields !! "summary"), (fields !! "htmlLink").
Qed.

Lemma cmd_add_missing_fields_example :
  printed (log (run (cmd_add (Demo.environment (PDict ∅)) (Demo.calendar (PDict ∅))
        ["Lunch"; "tomorrow"]) empty_world).2) =
    ["Adding: 'Lunch tomorrow'..."; "✅ Created event: None"; "   Link: None"].
Proof.
  rewrite (cmd_add_prints_None_for_missing_fields (Demo.environment (PDict ∅))
    (Demo.calendar (PDict ∅)) ["Lunch"; "tomorrow"] ∅ empty_world).
  - vm_compute. reflexivity.
  - reflexivity.
Defined.

(** ** [print_event]: errors and the time token *)

(** X10. [print_event] looks up the summary before it parses the start:
    for every event whose start expression evaluates but which has no
    [summary], it raises [KeyError] and prints nothing. *)
Theorem print_event_without_summary_raises_KeyError E fields start prefix w :
  start_of (PDict fields) = Ok start ->
  fields !! "summary" = None ->
  run (print_event E (PDict fields) prefix) w =
    (Raise (Exc "KeyError" "'summary'"), extend w [Present (PDict fields) prefix]).
Proof.
  intros Hstart Hsummary. rewrite print_event_run. unfold event_line.
  rewrite Hstart. cbn. by rewrite Hsummary.
Qed.

Lemma print_event_without_summary_example :
  run (print_event (Demo.environment PNone) (PDict {[ "start" := PDict ∅ ]}) "") empty_world =
    (Raise (Exc "KeyError" "'summary'"),
     extend empty_world [Present (PDict {[ "start" := PDict ∅ ]}) ""]).
Proof.
  apply (print_event_without_summary_raises_KeyError (Demo.environment PNone)
    {[ "start" := PDict ∅ ]} PNone "" empty_world).
  - vm_compute. reflexivity.
  - vm_compute. reflexivity.
Defined.

(** X11. The [try] statement of [print_event] guards against
    [ValueError] only: for every event with a summary whose start value is
    not a string, [print_event] raises the [TypeError] of [fromisoformat]
    and prints nothing. *)
Theorem print_event_non_text_start_raises_TypeError E fields start summary prefix w :
  start_of (PDict fields) = Ok start ->
  (forall s, start <> PStr s) ->
  fields !! "summary" = Some summary ->
  run (print_event E (PDict fields) prefix) w =
    (Raise (Exc "TypeError" "fromisoformat: argument must be str"),
     extend w [Present (PDict fields) prefix]).
Proof.
  intros Hstart Hnot Hsummary. rewrite print_event_run. unfold event_line.
  rewrite Hstart. cbn. rewrite Hsummary. cbn.
  destruct start; try done. by destruct (Hnot s).
Qed.

Lemma print_event_non_text_start_example :
  run (print_event (Demo.environment PNone)
         (PDict {[ "start" := PDict {[ "dateTime" := PInt 1704099600 ]};
                   "summary" := PStr "Standup" ]}) "") empty_world =
    (Raise (Exc "TypeError" "fromisoformat: argument must be str"),
     extend empty_world
       [Present (PDict {[ "start" := PDict {[ "dateTime" := PInt 1704099600 ]};
                          "summary" := PStr "Standup" ]}) ""]).
Proof.
  apply (print_event_non_text_start_raises_TypeError (Demo.environment PNone)
    {[ "start" := PDict {[ "dateTime" := PInt 1704099600 ]}; "summary" := PStr "Standup" ]}
    (PInt 1704099600) (PStr "Standup") "" empty_world).
  - vm_compute. reflexivity.
  - discriminate.
  - vm_compute. reflexivity.
Defined.

Lemma new_datetime_fields y m d hh mm ss us tz dt :
  Datetime.new_datetime y m d hh mm ss us tz = Ok dt ->
  dt = Datetime.mk_datetime y m d hh mm ss us tz /\
  1 <= m <= 12 /\ 1 <= d <= Datetime.days_in_month y m /\
  0 <= hh <= 23 /\ 0 <= mm <= 59.
Proof.
  unfold Datetime.new_datetime.
  repeat match goal with
  | |- context [if negb ?b then _ else _] => destruct b eqn:?; cbn [negb]; [|done]
  end.
  intros [= <-]. repeat split; lia.
Qed.

Lemma fromisoformat_fields r s dt :
  Datetime.fromisoformat r s = Ok dt ->
  0 <= Datetime.hour dt <= 23 /\ 0 <= Datetime.minute dt <= 59.
Proof.
  unfold Datetime.fromisoformat.
  destruct (bool_decide _); [done|].
  destruct (Datetime.find_isoformat_datetime_separator _ _) as [n|]; [|done].
  destruct (Datetime.parse_isoformat_date s n) as [[[y m] d]|]; [|done].
  destruct (bool_decide (n < _)%nat).
  - destruct (Datetime.parse_isoformat_time _ _) as [[t tz]|]; [|done].
    destruct (Datetime.tzinfo_from_isoformat_results tz) as [o|]; [|done]. cbn.
    intros (-> & _ & _ & ? & ?)%new_datetime_fields. done.
  - intros (-> & _ & _ & ? & ?)%new_datetime_fields. done.
Qed.

(** X12. Whatever text the start holds, the time token [print_event]
    shows is either ["All Day"] or an hour from 01 to 12, a minute from 00
    to 59 and [AM] or [PM]. *)
Theorem time_token_is_All_Day_or_twelve_hour_clock E s :
  exists token, time_str_of E (PStr s) = Ok token /\
    (token = "All Day" \/
     exists h m half, 1 <= h <= 12 /\ 0 <= m <= 59 /\ (half = "AM" \/ half = "PM") /\
       token = Datetime.two_digits h +:+ ":" +:+ Datetime.two_digits m +:+ " " +:+ half).
Proof.
  exists (time_token s). split; [apply time_str_of_string|].
  unfold time_token. destruct (Datetime.fromisoformat "" s) as [dt|e] eqn:Hparse; [|by left].
  right. apply fromisoformat_fields in Hparse as [Hh Hm].
  unfold Datetime.strftime_I_M_p.
  exists (if Datetime.hour dt mod 12 =? 0 then 12 else Datetime.hour dt mod 12),
    (Datetime.minute dt), (if Datetime.hour dt <? 12 then "AM" else "PM").
  pose proof (Z.mod_pos_bound (Datetime.hour dt) 12 eq_refl) as Hmod.
  repeat split; try lia.
  - destruct (Z.eqb_spec (Datetime.hour dt mod 12) 0); lia.
  - destruct (Z.eqb_spec (Datetime.hour dt mod 12) 0); lia.
  - destruct (Datetime.hour dt <? 12); auto.
Qed.

(** ** All-day events *)

Lemma digit_value_digit_char k : 0 <= k <= 9 -> Datetime.digit_value (Datetime.digit_char k) = Some k.
Proof.
  intros Hk.
  assert (k = 0 \/ k = 1 \/ k = 2 \/ k = 3 \/ k = 4 \/ k = 5 \/ k = 6 \/ k = 7 \/ k = 8 \/ k = 9)
    as Hcases by lia.
  repeat (destruct Hcases as [-> | Hcases]; [reflexivity|]). by subst.
Qed.

Lemma digit_is_not_W c d : Datetime.digit_value c = Some d -> Datetime.is_char c "W" = false.
Proof.
  intros Hd. unfold Datetime.is_char. apply bool_decide_eq_false.
  intros [= ->]. discriminate Hd.
Qed.

Lemma substring_all p : String.substring 0 (String.length p) p = p.
Proof. induction p as [|c p IH]; cbn; by rewrite ?IH. Qed.

Lemma advance_1 c p : Datetime.advance 1 (String c p) = p.
Proof.
  unfold Datetime.advance. cbn. rewrite Nat.sub_0_r. apply substring_all.
Qed.

Lemma parse_digits_cons c p k acc d :
  Datetime.digit_value c = Some d ->
  Datetime.parse_digits (String c p) (S k) acc = Datetime.parse_digits p k (acc * 10 + d).
Proof. intros Hd. cbn [Datetime.parse_digits Datetime.peek]. by rewrite Hd, advance_1. Qed.

(** The parser on ten bytes [dddd-dd-dd]. *)
Lemma fromisoformat_date_digits r c1 c2 c3 c4 c5 c6 c7 c8 d1 d2 d3 d4 d5 d6 d7 d8 :
  Datetime.digit_value c1 = Some d1 -> Datetime.digit_value c2 = Some d2 ->
  Datetime.digit_value c3 = Some d3 -> Datetime.digit_value c4 = Some d4 ->
  Datetime.digit_value c5 = Some d5 -> Datetime.digit_value c6 = Some d6 ->
  Datetime.digit_value c7 = Some d7 -> Datetime.digit_value c8 = Some d8 ->
  Datetime.fromisoformat r
    (String c1 (String c2 (String c3 (String c4 (String "-"
      (String c5 (String c6 (String "-" (String c7 (String c8 "")))))))))) =
  Datetime.new_datetime (((d1 * 10 + d2) * 10 + d3) * 10 + d4) (d5 * 10 + d6) (d7 * 10 + d8)
    0 0 0 0 None.
Proof.
  intros H1 H2 H3 H4 H5 H6 H7 H8.
  set (s := String c1 _).
  assert (Datetime.find_isoformat_datetime_separator s 10 = Some 10%nat) as Hsep.
  { unfold Datetime.find_isoformat_datetime_separator.
    rewrite bool_decide_eq_false_2 by done.
    change (Datetime.char_at s 4) with "-"%char.
    change (Datetime.char_at s 5) with c5.
    change (Datetime.is_char "-" "-") with true. cbn [andb].
    by rewrite (digit_is_not_W _ _ H5). }
  assert (Datetime.parse_isoformat_date s 10 =
    Some ((((d1 * 10 + d2) * 10 + d3) * 10 + d4), (d5 * 10 + d6), (d7 * 10 + d8))) as Hdate.
  { unfold Datetime.parse_isoformat_date, s.
    repeat first
      [ rewrite advance_1
      | rewrite H1 | rewrite H2 | rewrite H3 | rewrite H4
      | rewrite H5 | rewrite H6 | rewrite H7 | rewrite H8
      | rewrite (digit_is_not_W _ _ H5)
      | progress change (Datetime.is_char "-" "-") with true
      | progress cbn [Datetime.peek Datetime.parse_digits mbind option_bind andb negb] ].
    repeat f_equal; lia. }
  unfold Datetime.fromisoformat.
  change (String.length s) with 10%nat.
  rewrite bool_decide_eq_false_2 by lia.
  rewrite Hsep, Hdate.
  by rewrite bool_decide_eq_false_2 by lia.
Qed.

Lemma two_digits_value n :
  0 <= n <= 99 ->
  exists c1 c2, Datetime.two_digits n = String c1 (String c2 "") /\
    Datetime.digit_value c1 = Some (n / 10) /\ Datetime.digit_value c2 = Some (n mod 10).
Proof.
  intros Hn. eexists _, _. split; [reflexivity|].
  div_facts n 10. split; apply digit_value_digit_char; lia.
Qed.

Lemma days_in_month_le_31 y m : 1 <= m <= 12 -> Datetime.days_in_month y m <= 31.
Proof.
  intros Hm. unfold Datetime.days_in_month. destruct (_ && _); [lia|].
  assert (m = 1 \/ m = 2 \/ m = 3 \/ m = 4 \/ m = 5 \/ m = 6 \/ m = 7 \/ m = 8 \/ m = 9
    \/ m = 10 \/ m = 11 \/ m = 12) as Hcases by lia.
  repeat (destruct Hcases as [-> | Hcases]; [apply Z.leb_le; reflexivity|]).
  subst. apply Z.leb_le. reflexivity.
Qed.

(** Every calendar date parses as midnight of that day. *)
Lemma fromisoformat_isoformat_date r y m d :
  1 <= y <= 9999 -> 1 <= m <= 12 -> 1 <= d <= Datetime.days_in_month y m ->
  Datetime.fromisoformat r (isoformat_date y m d) =
    Ok (Datetime.mk_datetime y m d 0 0 0 0 None).
Proof.
  intros Hy Hm Hd.
  pose proof (days_in_month_le_31 y m Hm) as Hd'.
  div_facts y 100. div_facts (y / 100) 10. div_facts (y mod 100) 10.
  div_facts m 10. div_facts d 10. unfold isoformat_date.
  destruct (two_digits_value (y / 100)) as (c1 & c2 & -> & E1 & E2); [lia|].
  destruct (two_digits_value (y mod 100)) as (c3 & c4 & -> & E3 & E4); [lia|].
  destruct (two_digits_value m) as (c5 & c6 & Em & E5 & E6); [lia|].
  destruct (two_digits_value d) as (c7 & c8 & Ed & E7 & E8); [lia|].
  rewrite Em, Ed. cbv beta iota fix delta [String.append].
  rewrite (fromisoformat_date_digits r _ _ _ _ _ _ _ _ _ _ _ _ _ _ _ _ E1 E2 E3 E4 E5 E6 E7 E8).
  replace (((y / 100 / 10 * 10 + y / 100 mod 10) * 10 + y mod 100 / 10) * 10
    + y mod 100 mod 10) with y by lia.
  replace (m / 10 * 10 + m mod 10) with m by lia.
  replace (d / 10 * 10 + d mod 10) with d by lia.
  unfold Datetime.new_datetime, Datetime.MINYEAR, Datetime.MAXYEAR.
  repeat match goal with
  | |- context [negb (?a && ?b)] =>
      replace (a && b) with true by (symmetry; apply andb_true_intro; split; lia); cbn [negb]
  end.
  done.
Qed.

(** X13. The start of an all-day event is a calendar date, and every
    calendar date parses as midnight: [print_event] shows every all-day
    event at ["12:00 AM"], so the ["All Day"] label is never shown for one. *)
Theorem all_day_events_are_shown_at_midnight E y m d summary prefix w :
  1 <= y <= 9999 -> 1 <= m <= 12 -> 1 <= d <= Datetime.days_in_month y m ->
  run (print_event E (Demo.all_day_event (isoformat_date y m d) summary) prefix) w =
    (Ok tt, extend w
       [Present (Demo.all_day_event (isoformat_date y m d) summary) prefix;
        Print (prefix +:+ ESC +:+ "[96m[12:00 AM]" +:+ ESC +:+ "[0m " +:+ summary)]).
Proof.
  intros Hy Hm Hd.
  assert (event_record (Demo.all_day_event (isoformat_date y m d) summary) = true) as Hrec.
  { unfold event_record, Demo.all_day_event.
    apply andb_true_intro. split; apply bool_decide_eq_true.
    - exists (isoformat_date y m d). unfold start_string, start_value.
      rewrite lookup_insert_eq. rewrite lookup_singleton_ne by done.
      by rewrite lookup_singleton_eq.
    - exists (PStr summary). unfold summary_value.
      rewrite lookup_insert_ne by done. by rewrite lookup_singleton_eq. }
  rewrite (print_event_record _ _ _ _ Hrec). unfold presentation, rendered.
  assert (start_string (Demo.all_day_event (isoformat_date y m d) summary) =
    Some (isoformat_date y m d)) as ->.
  { unfold start_string, start_value, Demo.all_day_event.
    rewrite lookup_insert_eq. rewrite lookup_singleton_ne by done.
    by rewrite lookup_singleton_eq. }
  assert (summary_value (Demo.all_day_event (isoformat_date y m d) summary) =
    Some (PStr summary)) as ->.
  { unfold summary_value, Demo.all_day_event.
    rewrite lookup_insert_ne by done. by rewrite lookup_singleton_eq. }
  unfold time_token. cbn -[isoformat_date Datetime.fromisoformat].
  by rewrite (fromisoformat_isoformat_date "" y m d Hy Hm Hd).
Qed.

Lemma leap_day_example :
  run (print_event (Demo.environment PNone) (Demo.all_day_event "2024-02-29" "Leap day") "")
      empty_world =
    (Ok tt, extend empty_world
       [Present (Demo.all_day_event "2024-02-29" "Leap day") "";
        Print (ESC +:+ "[96m[12:00 AM]" +:+ ESC +:+ "[0m Leap day")]).
Proof.
  apply (all_day_events_are_shown_at_midnight (Demo.environment PNone) 2024 2 29
    "Leap day" "" empty_world); vm_compute; intuition discriminate.
Defined.

(** ** [main]: the commands end to end *)

Lemma get_service_valid E w data c svc :
  token_file w = Some data ->
  from_authorized_user_file E data = Ok c ->
  valid c = true ->
  build E (Some c) = Ok svc ->
  run (get_service E) w = (Ok svc, extend w [TokenRead; Build]).
Proof.
  intros Hfile Hload Hvalid Hbuild. unfold get_service. cbn. rewrite Hfile. cbn.
  rewrite Hload. cbn. rewrite Hvalid. cbn. rewrite Hbuild. by rewrite extend_extend.
Qed.

Lemma run_main E argv args w :
  parse_args E argv = Ok args ->
  run (main E argv) w =
    match run (dispatch E args) w with
    | (Raise (Exc _ msg), w') => (Ok tt, extend w' [Print ("Error: " +:+ msg)])
    | outcome => outcome
    end.
Proof.
  intros Hargs. unfold main. rewrite run_bind. cbn [lift run]. rewrite Hargs.
  unfold try_except_Exception. cbn [run].
  by destruct (run (dispatch E args) w) as [[[]|[| |]] w'].
Qed.

Lemma run_dispatch E args w :
  run (dispatch E args) w =
    match run (get_service E) w with
    | (Ok svc, w') =>
        run match args with
            | CmdAdd text => cmd_add E svc text
            | CmdNext => cmd_next E svc
            | CmdToday => cmd_today E svc
            end w'
    | (Raise e, w') => (Raise e, w')
    end.
Proof. unfold dispatch. by rewrite run_bind. Qed.

Lemma parse_args_command_line E args :
  existsb option_like (command_line args) = false ->
  (forall text, args = CmdAdd text -> text <> []) ->
  parse_args E (command_line args) = Ok args.
Proof.
  intros Hplain Htext. unfold parse_args. rewrite Hplain.
  destruct args as [text| |]; cbn; try done.
  rewrite bool_decide_eq_true_2 by done.
  destruct text; [by destruct (Htext [])|done].
Qed.





(** X16. End to end: with a valid token, [main] on [add] and words none
    of which looks like an option reads the token, builds the service, sends
    the words joined by single spaces and prints the answer; nothing is
    written to the token file and no [Error:] line is printed. *)
Theorem main_add_end_to_end E w data c svc word words fields summary link :
  existsb option_like (word :: words) = false ->
  token_file w = Some data ->
  from_authorized_user_file E data = Ok c ->
  valid c = true ->
  build E (Some c) = Ok svc ->
  quickAdd svc "primary" (String.concat " " (word :: words)) = Ok (PDict fields) ->
  fields !! "summary" = Some (PStr summary) ->
  fields !! "htmlLink" = Some (PStr link) ->
  run (main E ("add" :: word :: words)) w =
    (Ok tt, extend w
       [TokenRead; Build;
        Print ("Adding: '" +:+ String.concat " " (word :: words) +:+ "'...");
        QuickAdd "primary" (String.concat " " (word :: words));
        Print ("✅ Created event: " +:+ summary);
        Print ("   Link: " +:+ link)]).
Proof.
  intros Hplain Hfile Hload Hvalid Hbuild Hadd Hsummary Hlink.
  rewrite (run_main E _ (CmdAdd (word :: words))).
  - rewrite run_dispatch, (get_service_valid E w data c svc) by done.
    unfold cmd_add. cbn -[String.concat]. rewrite Hadd. cbn -[String.concat].
    rewrite Hsummary, Hlink. cbn -[String.concat]. by rewrite !extend_extend.
  - apply (parse_args_command_line E (CmdAdd (word :: words))); [done|].
    by intros text [= <-].
Qed.

Lemma main_add_example :
  run (main (Demo.environment (PDict Demo.created)) ["add"; "Dinner"; "at"; "7pm"])
      (Demo.with_token Demo.stored_token) =
    (Ok tt, extend (Demo.with_token Demo.stored_token)
       [TokenRead; Build;
        Print "Adding: 'Dinner at 7pm'...";
        QuickAdd "primary" "Dinner at 7pm";
        Print "✅ Created event: Dinner";
        Print "   Link: https://www.google.com/calendar/event?eid=abc"]).
Proof.
  apply (main_add_end_to_end (Demo.environment (PDict Demo.created))
    (Demo.with_token Demo.stored_token) Demo.stored_token Demo.stored_creds
    (Demo.calendar (PDict Demo.created)) "Dinner" ["at"; "7pm"] Demo.created
    "Dinner" "https://www.google.com/calendar/event?eid=abc");
    try reflexivity; vm_compute; reflexivity.
Defined.

(** X17. When the request of a command fails with an exception derived
    from [Exception], [main] ends normally: what the command printed before
    the request stays printed (the [Adding:] line of [add], the two header
    lines of [today], nothing for [next]) and is followed by the [Error:]
    line; no event is presented. *)
Theorem main_reports_request_failure E argv args w data c svc cls msg :
  parse_args E argv = Ok args ->
  token_file w = Some data ->
  from_authorized_user_file E data = Ok c ->
  valid c = true ->
  build E (Some c) = Ok svc ->
  answer_to E svc args = Raise (Exc cls msg) ->
  run (main E argv) w =
    (Ok tt, extend w ([TokenRead; Build] ++ before_answer E args
                        ++ [Print ("Error: " +:+ msg)])).
Proof.
  intros Hargs Hfile Hload Hvalid Hbuild Hfail.
  rewrite (run_main E argv args w Hargs), run_dispatch,
    (get_service_valid E w data c svc) by done.
  destruct args as [text| |]; cbn [answer_to before_answer] in *.
  - unfold cmd_add. cbn -[String.concat]. rewrite Hfail. cbn -[String.concat].
    by rewrite !extend_extend.
  - unfold cmd_next. cbn. rewrite Hfail. cbn. by rewrite !extend_extend.
  - unfold cmd_today. cbn. rewrite Hfail. cbn. by rewrite !extend_extend.
Qed.

Lemma main_request_failure_example :
  printed (log (run (main (Scenario.office Scenario.loader (fun c => Ok c) Scenario.consent
                       (Raise Scenario.busy)) ["today"])
      (Demo.with_token Demo.stored_token)).2) =
    ["📅 Agenda for Today (2024-01-01):"; "----------------------------------------";
     "Error: <HttpError 503 Service Unavailable>"].
Proof.
  rewrite (main_reports_request_failure
    (Scenario.office Scenario.loader (fun c => Ok c) Scenario.consent (Raise Scenario.busy))
    ["today"] CmdToday (Demo.with_token Demo.stored_token) Demo.stored_token
    Demo.stored_creds (Scenario.desk (Raise Scenario.busy)) "HttpError"
    "<HttpError 503 Service Unavailable>"); reflexivity.
Defined.
